(** * Smart Plumbing System: the analysis service over its data store

    A shallow embedding of the server side of the repository:
    the drizzle schema, the query layer ([db.ts]) and the analysis
    service ([aiService.ts]).

    Conventions.
    - Table columns of MySQL type [int]/[bigint] are [Z]; a table is the
      list of its rows in insertion order (order and duplicates matter:
      every table has the auto-increment [id] as its only key).
    - A JavaScript [number] that is always an integer in the source is
      [Z]; the others are exact rationals [Q].  Sums of table integers
      are exact in doubles; quotients are taken exactly.  [Math.sqrt]
      only ever feeds a comparison or [Math.round], so it is kept
      symbolic ([sqrt_gt], [gt_sqrt], [roundSqrt]); the one division
      whose divisor can be zero ([cvAbove]) spells out what IEEE-754
      division gives there.
    - The variance rule of the windowed analysis compares two computed
      doubles, a standard deviation and 0.3 times a mean, which can be
      equal as reals and differ as doubles: it is evaluated in IEEE
      binary64 ([Double]).
    - [AVG] over an [int] column is what MySQL returns: a DECIMAL with
      four fractional digits ([sqlAvg]).
    - [async] functions are computations in the state monad [M] over the
      database handle; [Date.now()] and [new Date()] read a [Clock] that
      is fixed for the duration of one call. *)

From Stdlib Require Import ZArith QArith Qround Qabs Reals Qreals.
From Stdlib Require Import List String Ascii Bool Lia Lra DecimalString.
From Stdlib Require Import Permutation Sorted.
From Stdlib Require Lqa.
From Stdlib Require PrimFloat Uint63.
Import ListNotations.
Open Scope string_scope.
Open Scope list_scope.
Open Scope Z_scope.

(** ** JavaScript numbers *)

Module JsNum.

Definition Qltb (x y : Q) : bool := negb (Qle_bool y x).

(** [l.reduce((a, b) => a + b, 0)] *)
Definition sum (l : list Z) : Z := fold_left Z.add l 0.

Definition Qsum (l : list Q) : Q := fold_left Qplus l 0%Q.

Definition len {A} (l : list A) : Z := Z.of_nat (List.length l).

(** [l.reduce((a, b) => a + b, 0) / l.length], for a non-empty [l] *)
Definition mean (l : list Z) : Q := (inject_Z (sum l) / inject_Z (len l))%Q.

Definition Qmean (l : list Q) : Q := (Qsum l / inject_Z (len l))%Q.

(** [(sum, rate) => sum + Math.pow(rate - avg, 2)] *)
Definition addSquare (avg sum rate : Q) : Q := (sum + (rate - avg) * (rate - avg))%Q.

(** [l.reduce((sum, rate) => sum + Math.pow(rate - avg, 2), 0) / l.length] *)
Definition Qvariance (l : list Q) (avg : Q) : Q :=
  (fold_left (addSquare avg) l 0 / inject_Z (len l))%Q.

Definition variance (l : list Z) (avg : Q) : Q := Qvariance (map inject_Z l) avg.

(** [Math.sqrt(v) > x], for [v >= 0] *)
Definition sqrt_gt (v x : Q) : bool := Qltb x 0 || Qltb (x * x) v.

(** [x > Math.sqrt(v)], for [v >= 0] *)
Definition gt_sqrt (x v : Q) : bool := Qltb 0 x && Qltb v (x * x).

(** [Math.sqrt(v) / a > c], for [v >= 0] and [c > 0].  The divisor may
    be zero: [x / 0] is [+Infinity] for [x > 0] and [NaN] for [x = 0],
    and [NaN > c] is false.  For [a < 0] the quotient is at most zero. *)
Definition cvAbove (v a c : Q) : bool :=
  if Qeq_bool a 0 then Qltb 0 v
  else if Qltb 0 a then sqrt_gt v (c * a)
  else false.

(** [Math.round(x)]: the nearest integer, ties towards +infinity *)
Definition round (x : Q) : Z := Qfloor (x + (1 # 2)).

(** [Math.round(Math.sqrt(v))], for [v >= 0]: the [r] with
    [(2r-1)^2 <= 4v < (2r+1)^2] *)
Definition roundSqrt (v : Q) : Z := (Z.sqrt (Qfloor (4 * v)) + 1) / 2.

(** [Math.min(...l)] and [Math.max(...l)], for a non-empty [l] *)
Definition minList (l : list Z) : Z :=
  match l with [] => 0 | x :: r => fold_left Z.min r x end.
Definition maxList (l : list Z) : Z :=
  match l with [] => 0 | x :: r => fold_left Z.max r x end.

(** [Array.prototype.sort]/[ORDER BY] as a stable insertion sort *)
Fixpoint insertBy {A} (le : A -> A -> bool) (x : A) (l : list A) : list A :=
  match l with
  | [] => [x]
  | y :: r => if le x y then x :: l else y :: insertBy le x r
  end.

Definition sortBy {A} (le : A -> A -> bool) (l : list A) : list A :=
  fold_right (insertBy le) [] l.

End JsNum.
Import JsNum.

(** ** IEEE binary64 arithmetic *)

Module Double.

(** The double of an integer of the table (exact below 2^53). *)
Definition ofZ (z : Z) : PrimFloat.float :=
  if z <? 0
  then PrimFloat.opp (PrimFloat.of_uint63 (Uint63.of_Z (- z)))
  else PrimFloat.of_uint63 (Uint63.of_Z z).

(** The literal [0.3]: the double nearest to 3/10. *)
Definition three_tenths : PrimFloat.float := PrimFloat.div (ofZ 3) (ofZ 10).

(** [l.reduce((a, b) => a + b, 0) / l.length] *)
Definition mean (l : list Z) : PrimFloat.float :=
  PrimFloat.div (fold_left PrimFloat.add (map ofZ l) (ofZ 0)) (ofZ (len l)).

(** [Math.pow(x, 2)], which is the product [x * x]. *)
Definition pow2 (x : PrimFloat.float) : PrimFloat.float := PrimFloat.mul x x.

(** [l.reduce((sum, rate) => sum + Math.pow(rate - avg, 2), 0) / l.length] *)
Definition variance (l : list Z) (avg : PrimFloat.float) : PrimFloat.float :=
  PrimFloat.div
    (fold_left (fun sum rate => PrimFloat.add sum (pow2 (PrimFloat.sub rate avg)))
       (map ofZ l) (ofZ 0))
    (ofZ (len l)).

(** [Math.sqrt(variance)] of the flow rates around their mean. *)
Definition stdDev (l : list Z) : PrimFloat.float :=
  PrimFloat.sqrt (variance l (mean l)).

(** [x > y] *)
Definition gt (x y : PrimFloat.float) : bool := PrimFloat.ltb y x.

End Double.

(** ** The schema (drizzle/schema.ts) *)

Inductive SensorStatus := sensor_active | sensor_leak | sensor_warning | sensor_offline.

Inductive AlertType := alert_leak | alert_blockage | alert_pressure_drop | alert_anomaly | alert_prediction.

Inductive Severity := low | medium | high | critical.

Record Sensor := {
  sensor_id : Z;
  sensor_name : string;
  sensor_location : string;
  sensor_pipeType : option string;
  sensor_status : SensorStatus
}.

Record FlowReading := {
  fr_id : Z;
  fr_sensorId : Z;
  flowRate : Z;
  pressure : Z;
  timestamp : Z
}.

Record Alert := {
  alert_id : Z;
  alert_sensorId : Z;
  alert_type : AlertType;
  alert_severity : Severity;
  alert_message : string;
  alert_location : string;
  isRead : bool;
  isResolved : bool;
  alert_timestamp : Z
}.

Record FlowPattern := {
  fp_id : Z;
  fp_sensorId : Z;
  hourOfDay : Z;
  dayOfWeek : Z;
  avgFlowRate : Z;
  minFlowRate : Z;
  maxFlowRate : Z;
  stdDeviation : Z;
  sampleCount : Z
}.

Record PipeRiskScore := {
  prs_id : Z;
  prs_sensorId : Z;
  prs_riskScore : Z;
  prs_leakProbability : Z;
  prs_blockageProbability : Z;
  prs_factors : string;
  lastAnalyzedAt : Z
}.

(** The rows of the five tables the analysis touches. *)
Record Store := {
  sensors : list Sensor;
  flowReadings : list FlowReading;
  alerts : list Alert;
  flowPatterns : list FlowPattern;
  pipeRiskScores : list PipeRiskScore
}.

(** [getDb()] yields [null] when no database is configured. *)
Definition Db := option Store.

(** ** The clock *)

Record Clock := {
  now : Z;          (* Date.now(), milliseconds since the epoch *)
  tzOffset : Z      (* local time minus UTC, in milliseconds *)
}.

(** [new Date(ts).getHours()] and [.getDay()] (1 January 1970 was a
    Thursday, day 4). *)
Definition getHours (clk : Clock) (ts : Z) : Z := ((ts + tzOffset clk) / 3600000) mod 24.
Definition getDay (clk : Clock) (ts : Z) : Z := ((ts + tzOffset clk) / 86400000 + 4) mod 7.

(** ** The state monad of the query layer *)

Definition M (A : Type) : Type := Db -> A * Db.

Definition ret {A} (a : A) : M A := fun d => (a, d).

Definition bind {A B} (m : M A) (k : A -> M B) : M B :=
  fun d => let (a, d') := m d in k a d'.

Notation "x <- m ;; k" := (bind m (fun x => k))
  (at level 61, m at next level, right associativity).
Notation "m ;;; k" := (bind m (fun _ => k))
  (at level 61, right associativity).

Definition getDb : M Db := fun d => (d, d).

(** Replace the rows of the store (a write through the handle). *)
Definition putStore (s : Store) : M unit := fun _ => (tt, Some s).

(** The result of a computation and the store it leaves behind. *)
Definition result {A} (m : M A) (d : Db) : A := fst (m d).
Definition after {A} (m : M A) (d : Db) : Db := snd (m d).

(** ** The query layer (server/db.ts) *)

(** The value MySQL gives an [autoincrement] column left out of an
    [INSERT]: one more than the largest [id] of the table. *)
Definition nextId {A} (key : A -> Z) (rows : list A) : Z :=
  1 + fold_left Z.max (map key rows) 0.

(** [INSERT ... ON DUPLICATE KEY UPDATE]: the row is inserted, unless it
    repeats an existing row's value on a unique key, and then that row
    is updated instead.  [key] is the only unique key the schema
    declares for these tables, the primary key [id]. *)
Definition insertOnDuplicateKeyUpdate {A} (key : A -> Z) (row : A)
    (update : A -> A) (rows : list A) : list A :=
  if existsb (fun r => key r =? key row) rows
  then map (fun r => if key r =? key row then update r else r) rows
  else rows ++ [row].

Definition setSensors (s : Store) (rows : list Sensor) : Store :=
  {| sensors := rows; flowReadings := flowReadings s; alerts := alerts s;
     flowPatterns := flowPatterns s; pipeRiskScores := pipeRiskScores s |}.

Definition setAlerts (s : Store) (rows : list Alert) : Store :=
  {| sensors := sensors s; flowReadings := flowReadings s; alerts := rows;
     flowPatterns := flowPatterns s; pipeRiskScores := pipeRiskScores s |}.

Definition setFlowPatterns (s : Store) (rows : list FlowPattern) : Store :=
  {| sensors := sensors s; flowReadings := flowReadings s; alerts := alerts s;
     flowPatterns := rows; pipeRiskScores := pipeRiskScores s |}.

Definition setPipeRiskScores (s : Store) (rows : list PipeRiskScore) : Store :=
  {| sensors := sensors s; flowReadings := flowReadings s; alerts := alerts s;
     flowPatterns := flowPatterns s; pipeRiskScores := rows |}.

(** *** Sensors *)

Definition getAllSensors : M (list Sensor) :=
  db <- getDb ;;
  match db with
  | None => ret []
  | Some s => ret (sortBy (fun a b => sensor_id a <=? sensor_id b) (sensors s))
  end.

Definition getSensorById (id : Z) : M (option Sensor) :=
  db <- getDb ;;
  match db with
  | None => ret None
  | Some s => ret (hd_error (filter (fun x => sensor_id x =? id) (sensors s)))
  end.

Definition withStatus (x : Sensor) (st : SensorStatus) : Sensor :=
  {| sensor_id := sensor_id x; sensor_name := sensor_name x;
     sensor_location := sensor_location x; sensor_pipeType := sensor_pipeType x;
     sensor_status := st |}.

Definition updateSensorStatus (id : Z) (st : SensorStatus) : M unit :=
  db <- getDb ;;
  match db with
  | None => ret tt
  | Some s =>
      putStore (setSensors s
        (map (fun x => if sensor_id x =? id then withStatus x st else x) (sensors s)))
  end.

(** *** Flow readings *)

Definition getRecentFlowReadings (sensorId limit : Z) : M (list FlowReading) :=
  db <- getDb ;;
  match db with
  | None => ret []
  | Some s =>
      ret (firstn (Z.to_nat limit)
             (sortBy (fun a b => timestamp b <=? timestamp a)
                (filter (fun r => fr_sensorId r =? sensorId) (flowReadings s))))
  end.

Definition getFlowReadingsInTimeRange (sensorId startTime endTime : Z)
    : M (list FlowReading) :=
  db <- getDb ;;
  match db with
  | None => ret []
  | Some s =>
      ret (sortBy (fun a b => timestamp a <=? timestamp b)
             (filter (fun r => (fr_sensorId r =? sensorId)
                               && (startTime <=? timestamp r)
                               && (timestamp r <=? endTime))
                (flowReadings s)))
  end.

Record AggregatedFlow := {
  agg_sensorId : Z;
  agg_avgFlowRate : Q;
  agg_minFlowRate : Z;
  agg_maxFlowRate : Z;
  agg_avgPressure : Q;
  readingCount : Z
}.

(** The distinct values of a column, in order of first appearance. *)
Fixpoint distinct (l : list Z) : list Z :=
  match l with
  | [] => []
  | x :: r => x :: filter (fun y => negb (y =? x)) (distinct r)
  end.

(** Rounding of a DECIMAL: to the nearest integer, halves away from
    zero. *)
Definition roundHalfAway (q : Q) : Z :=
  if Qle_bool 0 q then Qfloor (q + (1 # 2)) else - Qfloor (- q + (1 # 2)).

(** [AVG] over an [int] column: the quotient as a DECIMAL with four
    fractional digits, the scale MySQL gives a division. *)
Definition sqlAvg (l : list Z) : Q :=
  (inject_Z (roundHalfAway (mean l * 10000)) / 10000)%Q.

(** One [GROUP BY sensorId] row: AVG, MIN, MAX, AVG and the row count.
    The averages are the decimals the callers read back with
    [Number(...)]. *)
Definition aggregateGroup (rows : list FlowReading) (sid : Z) : AggregatedFlow :=
  let g := filter (fun r => fr_sensorId r =? sid) rows in
  {| agg_sensorId := sid;
     agg_avgFlowRate := sqlAvg (map flowRate g);
     agg_minFlowRate := minList (map flowRate g);
     agg_maxFlowRate := maxList (map flowRate g);
     agg_avgPressure := sqlAvg (map pressure g);
     readingCount := len g |}.

Definition getAggregatedFlowData (clk : Clock) (timeWindowMs : Z)
    : M (list AggregatedFlow) :=
  db <- getDb ;;
  match db with
  | None => ret []
  | Some s =>
      let cutoffTime := now clk - timeWindowMs in
      let rows := filter (fun r => cutoffTime <=? timestamp r) (flowReadings s) in
      ret (map (aggregateGroup rows) (distinct (map fr_sensorId rows)))
  end.

(** *** Alerts *)

Record InsertAlert := {
  ia_sensorId : Z;
  ia_type : AlertType;
  ia_severity : Severity;
  ia_message : string;
  ia_location : string;
  ia_timestamp : Z
}.

(** [createAlert] throws when there is no database: [None]. *)
Definition createAlert (a : InsertAlert) : M (option Z) :=
  db <- getDb ;;
  match db with
  | None => ret None
  | Some s =>
      let insertId := nextId alert_id (alerts s) in
      putStore (setAlerts s (alerts s ++
        [{| alert_id := insertId; alert_sensorId := ia_sensorId a;
            alert_type := ia_type a; alert_severity := ia_severity a;
            alert_message := ia_message a; alert_location := ia_location a;
            isRead := false; isResolved := false;
            alert_timestamp := ia_timestamp a |}])) ;;;
      ret (Some insertId)
  end.

(** *** Flow patterns *)

Record InsertFlowPattern := {
  ifp_sensorId : Z;
  ifp_hourOfDay : Z;
  ifp_dayOfWeek : Z;
  ifp_avgFlowRate : Z;
  ifp_minFlowRate : Z;
  ifp_maxFlowRate : Z;
  ifp_stdDeviation : Z;
  ifp_sampleCount : Z
}.

Definition flowPatternRow (id : Z) (p : InsertFlowPattern) : FlowPattern :=
  {| fp_id := id; fp_sensorId := ifp_sensorId p;
     hourOfDay := ifp_hourOfDay p; dayOfWeek := ifp_dayOfWeek p;
     avgFlowRate := ifp_avgFlowRate p; minFlowRate := ifp_minFlowRate p;
     maxFlowRate := ifp_maxFlowRate p; stdDeviation := ifp_stdDeviation p;
     sampleCount := ifp_sampleCount p |}.

(** The [set] clause of [upsertFlowPattern]. *)
Definition flowPatternUpdate (p : InsertFlowPattern) (r : FlowPattern) : FlowPattern :=
  {| fp_id := fp_id r; fp_sensorId := fp_sensorId r;
     hourOfDay := hourOfDay r; dayOfWeek := dayOfWeek r;
     avgFlowRate := ifp_avgFlowRate p; minFlowRate := ifp_minFlowRate p;
     maxFlowRate := ifp_maxFlowRate p; stdDeviation := ifp_stdDeviation p;
     sampleCount := sampleCount r + 1 |}.

Definition upsertFlowPattern (pattern : InsertFlowPattern) : M unit :=
  db <- getDb ;;
  match db with
  | None => ret tt
  | Some s =>
      let row := flowPatternRow (nextId fp_id (flowPatterns s)) pattern in
      putStore (setFlowPatterns s
        (insertOnDuplicateKeyUpdate fp_id row (flowPatternUpdate pattern)
           (flowPatterns s)))
  end.

Definition getFlowPattern (sensorId hour day : Z) : M (option FlowPattern) :=
  db <- getDb ;;
  match db with
  | None => ret None
  | Some s =>
      ret (hd_error (filter (fun p => (fp_sensorId p =? sensorId)
                                      && (hourOfDay p =? hour)
                                      && (dayOfWeek p =? day))
                       (flowPatterns s)))
  end.

Definition getAllFlowPatternsForSensor (sensorId : Z) : M (list FlowPattern) :=
  db <- getDb ;;
  match db with
  | None => ret []
  | Some s =>
      ret (sortBy (fun a b => (dayOfWeek a <? dayOfWeek b)
                              || ((dayOfWeek a =? dayOfWeek b)
                                  && (hourOfDay a <=? hourOfDay b)))
             (filter (fun p => fp_sensorId p =? sensorId) (flowPatterns s)))
  end.

(** *** Pipe risk scores *)

Record InsertPipeRiskScore := {
  ips_sensorId : Z;
  ips_riskScore : Z;
  ips_leakProbability : Z;
  ips_blockageProbability : Z;
  ips_factors : string;
  ips_lastAnalyzedAt : Z
}.

Definition pipeRiskScoreRow (id : Z) (p : InsertPipeRiskScore) : PipeRiskScore :=
  {| prs_id := id; prs_sensorId := ips_sensorId p;
     prs_riskScore := ips_riskScore p;
     prs_leakProbability := ips_leakProbability p;
     prs_blockageProbability := ips_blockageProbability p;
     prs_factors := ips_factors p; lastAnalyzedAt := ips_lastAnalyzedAt p |}.

Definition pipeRiskScoreUpdate (p : InsertPipeRiskScore) (r : PipeRiskScore)
    : PipeRiskScore :=
  pipeRiskScoreRow (prs_id r)
    {| ips_sensorId := prs_sensorId r; ips_riskScore := ips_riskScore p;
       ips_leakProbability := ips_leakProbability p;
       ips_blockageProbability := ips_blockageProbability p;
       ips_factors := ips_factors p; ips_lastAnalyzedAt := ips_lastAnalyzedAt p |}.

Definition upsertPipeRiskScore (score : InsertPipeRiskScore) : M unit :=
  db <- getDb ;;
  match db with
  | None => ret tt
  | Some s =>
      let row := pipeRiskScoreRow (nextId prs_id (pipeRiskScores s)) score in
      putStore (setPipeRiskScores s
        (insertOnDuplicateKeyUpdate prs_id row (pipeRiskScoreUpdate score)
           (pipeRiskScores s)))
  end.

(** *** Smart monitoring helpers *)

(** [stdDev] is [Math.sqrt(variance)]; its only use is a comparison, so
    the record carries the variance. *)
Record FlowVariance := {
  fv_avgFlow : Q;
  fv_variance : Q;
  sensorData : list AggregatedFlow
}.

Definition calculateFlowVariance (clk : Clock) : M (option FlowVariance) :=
  aggregatedData <- getAggregatedFlowData clk 300000 ;;
  if len aggregatedData <? 2 then ret None
  else
    let flowRates := map agg_avgFlowRate aggregatedData in
    let avgFlow := Qmean flowRates in
    let variance := Qvariance flowRates avgFlow in
    ret (Some {| fv_avgFlow := avgFlow; fv_variance := variance;
                 sensorData := aggregatedData |}).

Record Range := { min : Q; max : Q }.

Record AnomalyCheck := {
  isAnomaly : bool;
  deviation : Q;
  expectedRange : option Range
}.

Definition checkFlowAnomaly (clk : Clock) (sensorId : Z) (currentFlowRate : Q)
    : M AnomalyCheck :=
  let hourOfDay := getHours clk (now clk) in
  let dayOfWeek := getDay clk (now clk) in
  pattern <- getFlowPattern sensorId hourOfDay dayOfWeek ;;
  match pattern with
  | None => ret {| isAnomaly := false; deviation := 0; expectedRange := None |}
  | Some pattern =>
      if sampleCount pattern <? 10
      then ret {| isAnomaly := false; deviation := 0; expectedRange := None |}
      else
        let expectedMin := avgFlowRate pattern - 2 * stdDeviation pattern in
        let expectedMax := avgFlowRate pattern + 2 * stdDeviation pattern in
        let isAnomaly := Qltb currentFlowRate (inject_Z expectedMin)
                         || Qltb (inject_Z expectedMax) currentFlowRate in
        let deviation := (currentFlowRate - inject_Z (avgFlowRate pattern))%Q in
        ret {| isAnomaly := isAnomaly;
               deviation := deviation;
               expectedRange :=
                 Some {| min := inject_Z expectedMin / 100;
                         max := inject_Z expectedMax / 100 |} |}
  end.

(** ** The analysis service (server/aiService.ts) *)

Inductive FlowStatus := normal | warning | leak | blockage.

Record FlowAnalysisResult := {
  sensorId : Z;
  status : FlowStatus;
  confidence : Z;
  message : string;
  severity : Severity;
  factors : list string
}.

(** The mutable locals [factors], [status], [severity], [confidence] of
    [analyzeFlowOverTime]. *)
Record Verdict := {
  v_factors : list string;
  v_status : FlowStatus;
  v_severity : Severity;
  v_confidence : Z
}.

Definition generateAnalysisMessage (status : FlowStatus) (factors : list string)
    (location : string) : string :=
  let factorText :=
    if 0 <? len factors
    then (" Factors: " ++ String.concat ", " factors ++ ".")%string
    else "" in
  match status with
  | leak => ("Leak detected at " ++ location ++ "." ++ factorText)%string
  | blockage => ("Possible blockage detected at " ++ location ++ "." ++ factorText)%string
  | warning =>
      ("Abnormal flow pattern at " ++ location ++ ". Monitoring recommended."
         ++ factorText)%string
  | normal => ("Normal operation at " ++ location ++ ".")%string
  end.

(** *** Smart monitoring *)

(** High variance indicates unstable flow: [flowStdDev > avgFlow * 0.3],
    a comparison of doubles. *)
Definition ruleHighVariance (flowStdDev avgFlow : PrimFloat.float) (v : Verdict)
    : Verdict :=
  if Double.gt flowStdDev (PrimFloat.mul avgFlow Double.three_tenths)
  then {| v_factors := v_factors v ++ ["high_flow_variance"];
          v_status := warning; v_severity := medium;
          v_confidence := v_confidence v |}
  else v.

(** Sudden pressure drop indicates leak: [avgPressure < 3000]. *)
Definition ruleLowPressure (avgPressure : Q) (v : Verdict) : Verdict :=
  if Qltb avgPressure 3000
  then {| v_factors := v_factors v ++ ["low_pressure"];
          v_status := leak; v_severity := high; v_confidence := 85 |}
  else v.

(** Very low flow at high pressure: [avgFlow < 100 && avgPressure > 5000]. *)
Definition ruleBlockage (avgFlow avgPressure : Q) (v : Verdict) : Verdict :=
  if Qltb avgFlow 100 && Qltb 5000 avgPressure
  then {| v_factors := v_factors v ++ ["possible_blockage"];
          v_status := blockage; v_severity := medium; v_confidence := 75 |}
  else v.

(** Check against learned patterns. *)
Definition rulePattern (anomalyCheck : AnomalyCheck) (v : Verdict) : Verdict :=
  if isAnomaly anomalyCheck
  then
    let escalate := match v_status v with normal => true | _ => false end in
    {| v_factors := v_factors v ++ ["pattern_deviation"];
       v_status := if escalate then warning else v_status v;
       v_severity := if escalate then medium else v_severity v;
       v_confidence := Z.min (v_confidence v + 10) 95 |}
  else v.

Definition analyzeFlowOverTime (clk : Clock) (sensorId windowMinutes : Z)
    : M FlowAnalysisResult :=
  let windowMs := windowMinutes * 60 * 1000 in
  let endTime := now clk in
  let startTime := endTime - windowMs in
  readings <- getFlowReadingsInTimeRange sensorId startTime endTime ;;
  sensor <- getSensorById sensorId ;;
  match sensor with
  | None =>
      ret {| sensorId := sensorId; status := normal; confidence := 0;
             message := "Sensor not found"; severity := low;
             factors := ["sensor_not_found"] |}
  | Some sensor =>
      if len readings <? 3
      then ret {| sensorId := sensorId; status := normal; confidence := 50;
                  message := "Insufficient data for analysis"; severity := low;
                  factors := ["insufficient_data"] |}
      else
        let flowRates := map flowRate readings in
        let pressures := map pressure readings in
        let avgFlow := mean flowRates in
        let avgPressure := mean pressures in
        let flowStdDev := Double.stdDev flowRates in
        anomalyCheck <- checkFlowAnomaly clk sensorId avgFlow ;;
        let v := {| v_factors := []; v_status := normal; v_severity := low;
                    v_confidence := 70 |} in
        let v := ruleHighVariance flowStdDev (Double.mean flowRates) v in
        let v := ruleLowPressure avgPressure v in
        let v := ruleBlockage avgFlow avgPressure v in
        let v := rulePattern anomalyCheck v in
        let message :=
          generateAnalysisMessage (v_status v) (v_factors v) (sensor_location sensor) in
        ret {| sensorId := sensorId; status := v_status v;
               confidence := v_confidence v; message := message;
               severity := v_severity v; factors := v_factors v |}
  end.

(** *** Comparison across pipes *)

Record FlowComparison := {
  isSystemWideIssue : bool;
  affectedSensors : list Z;
  diagnosis : string
}.

(** A count interpolated into a template string. *)
Definition showZ (n : Z) : string := DecimalString.NilZero.string_of_int (Z.to_int n).

Definition compareFlowAcrossPipes (clk : Clock) : M FlowComparison :=
  flowVariance <- calculateFlowVariance clk ;;
  match flowVariance with
  | None =>
      ret {| isSystemWideIssue := false; affectedSensors := [];
             diagnosis := "Insufficient data for comparison" |}
  | Some fv =>
      let sensorData := sensorData fv in
      let avgFlow := fv_avgFlow fv in
      let lowFlowSensors :=
        filter (fun s => Qltb (agg_avgFlowRate s) (avgFlow * (1 # 2))) sensorData in
      let isSystemWide :=
        Qltb (inject_Z (len sensorData) * (7 # 10)) (inject_Z (len lowFlowSensors)) in
      if isSystemWide
      then ret {| isSystemWideIssue := true;
                  affectedSensors := map agg_sensorId sensorData;
                  diagnosis := "System-wide low flow detected. Possible causes: low water tank level, main supply issue, or scheduled maintenance." |}
      else
        (* deviation > stdDev * 2 *)
        let outliers :=
          filter (fun s =>
                    let deviation := Qabs (agg_avgFlowRate s - avgFlow) in
                    gt_sqrt (deviation / 2) (fv_variance fv)) sensorData in
        if 0 <? len outliers
        then ret {| isSystemWideIssue := false;
                    affectedSensors := map agg_sensorId outliers;
                    diagnosis :=
                      ("Localized flow anomaly detected in " ++ showZ (len outliers)
                       ++ " sensor(s). Possible leak or blockage in specific pipe sections.")%string |}
        else ret {| isSystemWideIssue := false; affectedSensors := [];
                    diagnosis := "All sensors operating within normal parameters." |}
  end.

(** *** Pattern learning *)

(** [patterns.get(key).push(v)] on a [Map] in insertion order; the key
    string [day-hour] is the pair [(day, hour)]. *)
Fixpoint groupPush (key : Z * Z) (v : Z) (m : list ((Z * Z) * list Z))
    : list ((Z * Z) * list Z) :=
  match m with
  | [] => [(key, [v])]
  | (k, vs) :: r =>
      if (fst k =? fst key) && (snd k =? snd key)
      then (k, vs ++ [v]) :: r
      else (k, vs) :: groupPush key v r
  end.

Definition groupByDayHour (clk : Clock) (readings : list FlowReading)
    : list ((Z * Z) * list Z) :=
  fold_left (fun m reading =>
               groupPush (getDay clk (timestamp reading), getHours clk (timestamp reading))
                 (flowRate reading) m)
    readings [].

Fixpoint forEach {A} (l : list A) (f : A -> M unit) : M unit :=
  match l with
  | [] => ret tt
  | x :: r => f x ;;; forEach r f
  end.

Definition learnedPattern (sensorId : Z) (entry : (Z * Z) * list Z) : InsertFlowPattern :=
  let '((dayOfWeek, hourOfDay), flowRates) := entry in
  let avg := mean flowRates in
  let variance := variance flowRates avg in
  {| ifp_sensorId := sensorId;
     ifp_hourOfDay := hourOfDay;
     ifp_dayOfWeek := dayOfWeek;
     ifp_avgFlowRate := round avg;
     ifp_minFlowRate := minList flowRates;
     ifp_maxFlowRate := maxList flowRates;
     ifp_stdDeviation := roundSqrt variance;
     ifp_sampleCount := len flowRates |}.

Definition learnFlowPatterns (clk : Clock) (sensorId : Z) : M unit :=
  readings <- getRecentFlowReadings sensorId 100 ;;
  if len readings <? 10 then ret tt
  else
    let patterns := groupByDayHour clk readings in
    forEach patterns (fun entry => upsertFlowPattern (learnedPattern sensorId entry)).

(** *** Risk prediction *)

Record PredictionResult := {
  pr_sensorId : Z;
  sensorName : string;
  riskScore : Z;
  leakProbability : Z;
  blockageProbability : Z;
  pr_factors : list string;
  recommendation : string
}.

(** The mutable locals [riskScore], [leakProbability],
    [blockageProbability], [factors] of [calculatePipeRiskScore]. *)
Record Score := {
  s_riskScore : Z;
  s_leakProbability : Z;
  s_blockageProbability : Z;
  s_factors : list string
}.

Definition addRisk (risk leakp : Z) (label : string) (sc : Score) : Score :=
  {| s_riskScore := s_riskScore sc + risk;
     s_leakProbability := s_leakProbability sc + leakp;
     s_blockageProbability := s_blockageProbability sc;
     s_factors := s_factors sc ++ [label] |}.

(** Factor 1: current status. *)
Definition factorStatus (sensor : Sensor) (sc : Score) : Score :=
  match sensor_status sensor with
  | sensor_leak => addRisk 50 80 "Active leak detected" sc
  | sensor_warning => addRisk 25 30 "Warning status active" sc
  | _ => sc
  end.

(** Factor 2: flow variance in recent readings, and pressure drops. *)
Definition factorReadings (recentReadings : list FlowReading) (sc : Score) : Score :=
  if 10 <=? len recentReadings
  then
    let flowRates := map flowRate recentReadings in
    let avg := mean flowRates in
    let variance := variance flowRates avg in
    (* coefficientOfVariation = Math.sqrt(variance) / avg;  > 0.5 *)
    let sc := if cvAbove variance avg (1 # 2)
              then addRisk 20 25 "High flow variability" sc else sc in
    let pressures := map pressure recentReadings in
    let avgPressure := mean pressures in
    if Qltb avgPressure 3500
    then addRisk 15 20 "Below-normal pressure" sc
    else sc
  else sc.

(** Factor 3: pattern deviations. *)
Definition factorPattern (clk : Clock) (patterns : list FlowPattern)
    (recentReadings : list FlowReading) (sc : Score) : Score :=
  if 0 <? len patterns
  then
    match find (fun p => (hourOfDay p =? getHours clk (now clk))
                         && (dayOfWeek p =? getDay clk (now clk))) patterns,
          recentReadings with
    | Some currentPattern, first :: _ =>
        let currentFlow := flowRate first in
        let deviation := Z.abs (currentFlow - avgFlowRate currentPattern) in
        if stdDeviation currentPattern * 2 <? deviation
        then addRisk 15 0 "Significant pattern deviation" sc
        else sc
    | _, _ => sc
    end
  else sc.

(** Factor 4: pipe type risk. *)
Definition factorPipeType (sensor : Sensor) (sc : Score) : Score :=
  match sensor_pipeType sensor with
  | Some t => if String.eqb t "main"
              then addRisk 5 0 "Main pipe (higher impact)" sc else sc
  | None => sc
  end.

(** Normalize scores. *)
Definition normalize (sc : Score) : Score :=
  {| s_riskScore := Z.min (s_riskScore sc) 100;
     s_leakProbability := Z.min (s_leakProbability sc) 100;
     s_blockageProbability := Z.min (s_blockageProbability sc) 100;
     s_factors := s_factors sc |}.

Definition recommend (riskScore : Z) : string :=
  if 70 <? riskScore
  then "Immediate inspection recommended. High risk of failure."
  else if 40 <? riskScore
  then "Schedule preventive maintenance within the next week."
  else if 20 <? riskScore
  then "Monitor closely. Consider inspection during next maintenance cycle."
  else "Continue regular monitoring.".

(** [JSON.stringify] of an array of strings without characters to escape. *)
Definition quote : string := String (ascii_of_nat 34) EmptyString.
Definition JSON_stringify (l : list string) : string :=
  ("[" ++ String.concat "," (map (fun s => quote ++ s ++ quote) l) ++ "]")%string.

Definition calculatePipeRiskScore (clk : Clock) (sensorId : Z)
    : M (option PredictionResult) :=
  sensor <- getSensorById sensorId ;;
  match sensor with
  | None => ret None
  | Some sensor =>
      recentReadings <- getRecentFlowReadings sensorId 50 ;;
      patterns <- getAllFlowPatternsForSensor sensorId ;;
      let sc := {| s_riskScore := 0; s_leakProbability := 0;
                   s_blockageProbability := 0; s_factors := [] |} in
      let sc := factorStatus sensor sc in
      let sc := factorReadings recentReadings sc in
      let sc := factorPattern clk patterns recentReadings sc in
      let sc := factorPipeType sensor sc in
      let sc := normalize sc in
      let recommendation := recommend (s_riskScore sc) in
      (* Store the risk score *)
      upsertPipeRiskScore
        {| ips_sensorId := sensorId;
           ips_riskScore := s_riskScore sc;
           ips_leakProbability := s_leakProbability sc * 100;
           ips_blockageProbability := s_blockageProbability sc * 100;
           ips_factors := JSON_stringify (s_factors sc);
           ips_lastAnalyzedAt := now clk |} ;;;
      ret (Some {| pr_sensorId := sensorId;
                   sensorName := sensor_name sensor;
                   riskScore := s_riskScore sc;
                   leakProbability := s_leakProbability sc;
                   blockageProbability := s_blockageProbability sc;
                   pr_factors := s_factors sc;
                   recommendation := recommendation |})
  end.

(** The locals of [calculatePipeRiskScore] once the four factors have
    been applied and the scores normalized. *)
Definition scoreOf (clk : Clock) (sensor : Sensor) (recentReadings : list FlowReading)
    (patterns : list FlowPattern) : Score :=
  normalize
    (factorPipeType sensor
       (factorPattern clk patterns recentReadings
          (factorReadings recentReadings
             (factorStatus sensor
                {| s_riskScore := 0; s_leakProbability := 0;
                   s_blockageProbability := 0; s_factors := [] |})))).

(** The row [calculatePipeRiskScore] hands to [upsertPipeRiskScore]. *)
Definition scoreToStore (clk : Clock) (sensorId : Z) (sc : Score) : InsertPipeRiskScore :=
  {| ips_sensorId := sensorId;
     ips_riskScore := s_riskScore sc;
     ips_leakProbability := s_leakProbability sc * 100;
     ips_blockageProbability := s_blockageProbability sc * 100;
     ips_factors := JSON_stringify (s_factors sc);
     ips_lastAnalyzedAt := now clk |}.

(** A stored bucket at a glance: sensor, hour, weekday and sample count. *)
Definition bucketOf (p : FlowPattern) : Z * Z * Z * Z :=
  (fp_sensorId p, hourOfDay p, dayOfWeek p, sampleCount p).

Definition buckets (d : Db) : list (Z * Z * Z * Z) :=
  match d with
  | Some s => map bucketOf (flowPatterns s)
  | None => []
  end.

(** The bucket [learnFlowPatterns] computes from one group of readings. *)
Definition learnedBucket (sensorId : Z) (entry : (Z * Z) * list Z) : Z * Z * Z * Z :=
  (sensorId, snd (fst entry), fst (fst entry), len (snd entry)).

(** A computation that only reads leaves the handle as it was. *)
Definition readOnly {A} (m : M A) : Prop := forall d, after m d = d.

(** ** Sample stores *)

Module Sample.

(** Tuesday 14 November 2023, 22:13:20 UTC. *)
Definition clock : Clock := {| now := 1700000000000; tzOffset := 0 |}.

Definition pipe (id : Z) (name location kind : string) (st : SensorStatus) : Sensor :=
  {| sensor_id := id; sensor_name := name; sensor_location := location;
     sensor_pipeType := Some kind; sensor_status := st |}.

Definition mainPipe (st : SensorStatus) : Sensor :=
  pipe 1 "Main Pipe" "Upper floor - Kitchen" "main" st.

(** A reading taken [ago] milliseconds before [now clock]. *)
Definition reading (id sid flow psi ago : Z) : FlowReading :=
  {| fr_id := id; fr_sensorId := sid; flowRate := flow; pressure := psi;
     timestamp := now clock - ago |}.

Definition store (ss : list Sensor) (rs : list FlowReading) (ps : list FlowPattern)
    : Db :=
  Some {| sensors := ss; flowReadings := rs; alerts := [];
          flowPatterns := ps; pipeRiskScores := [] |}.

(** The bucket of Tuesday, 22h, for sensor 1. *)
Definition bucket (n : Z) : FlowPattern :=
  {| fp_id := 1; fp_sensorId := 1; hourOfDay := 22; dayOfWeek := 2;
     avgFlowRate := 1000; minFlowRate := 800; maxFlowRate := 1200;
     stdDeviation := 100; sampleCount := n |}.

(** Three readings of 18 PSI in the last five minutes. *)
Definition lowPressureReadings : list FlowReading :=
  [reading 1 1 2000 1800 180000; reading 2 1 2000 1800 120000;
   reading 3 1 2000 1800 60000].

Definition lowPressure : Db := store [mainPipe sensor_active] lowPressureReadings [].

Definition lowPressureLearned : Db :=
  store [mainPipe sensor_active] lowPressureReadings [bucket 10].

Definition twoReadings : Db :=
  store [mainPipe sensor_active]
    [reading 1 1 2000 1800 120000; reading 2 1 2000 1800 60000] [].

Definition coldStart : Db := store [mainPipe sensor_active] [] [bucket 9].

Definition noSensors : Db := store [] lowPressureReadings [].

Definition threePipes : list Sensor :=
  [mainPipe sensor_active;
   pipe 2 "Secondary Pipe" "Ground floor - Bathroom" "secondary" sensor_active;
   pipe 3 "Branch Pipe" "Basement - Utility Room" "branch" sensor_active].

(** Mean flows 100, 105 and 98. *)
Definition similarFlows : Db :=
  store threePipes
    [reading 1 1 100 4000 60000; reading 2 2 105 4000 60000;
     reading 3 3 98 4000 60000] [].

(** Three of four pipes dry. *)
Definition lowTank : Db :=
  store (threePipes ++ [pipe 4 "Garden Pipe" "Garden" "branch" sensor_active])
    [reading 1 1 0 4000 60000; reading 2 2 0 4000 60000;
     reading 3 3 0 4000 60000; reading 4 4 1000 4000 60000] [].

Definition leaking : Db := store [mainPipe sensor_leak] [] [].


(** Ten readings of one hour. *)
Definition steady : Db :=
  store [mainPipe sensor_active]
    (map (fun i => reading i 1 (2000 + i) 4000 (i * 1000))
       [1; 2; 3; 4; 5; 6; 7; 8; 9; 10]) [].

End Sample.

(** ** The rest of the query layer (server/db.ts) *)

Definition setFlowReadings (s : Store) (rows : list FlowReading) : Store :=
  {| sensors := sensors s; flowReadings := rows; alerts := alerts s;
     flowPatterns := flowPatterns s; pipeRiskScores := pipeRiskScores s |}.

(** The columns of [InsertSensor] that [seedSensors] fills in.  A
    [pipeType] left out gets the column default, main; the status of a
    new sensor is the column default, active.  [Sensor] holds the
    columns the service reads: the description and the position of a
    new sensor are accepted and not kept. *)
Record InsertSensor := {
  is_name : string;
  is_description : string;
  is_location : string;
  is_pipeType : option string;
  is_positionX : Z;
  is_positionY : Z
}.

(** [createSensor] throws when there is no database: [None]. *)
Definition createSensor (sensor : InsertSensor) : M (option Z) :=
  db <- getDb ;;
  match db with
  | None => ret None
  | Some s =>
      let insertId := nextId sensor_id (sensors s) in
      putStore (setSensors s (sensors s ++
        [{| sensor_id := insertId; sensor_name := is_name sensor;
            sensor_location := is_location sensor;
            sensor_pipeType :=
              match is_pipeType sensor with Some t => Some t | None => Some "main" end;
            sensor_status := sensor_active |}])) ;;;
      ret (Some insertId)
  end.

Record InsertFlowReading := {
  ifr_sensorId : Z;
  ifr_flowRate : Z;
  ifr_pressure : Z;
  ifr_timestamp : Z
}.

(** [addFlowReading] throws when there is no database: [None]. *)
Definition addFlowReading (reading : InsertFlowReading) : M (option Z) :=
  db <- getDb ;;
  match db with
  | None => ret None
  | Some s =>
      let insertId := nextId fr_id (flowReadings s) in
      putStore (setFlowReadings s (flowReadings s ++
        [{| fr_id := insertId; fr_sensorId := ifr_sensorId reading;
            flowRate := ifr_flowRate reading; pressure := ifr_pressure reading;
            timestamp := ifr_timestamp reading |}])) ;;;
      ret (Some insertId)
  end.

Definition getAllAlerts (limit : Z) : M (list Alert) :=
  db <- getDb ;;
  match db with
  | None => ret []
  | Some s =>
      ret (firstn (Z.to_nat limit)
             (sortBy (fun a b => alert_timestamp b <=? alert_timestamp a) (alerts s)))
  end.

Definition getUnreadAlerts : M (list Alert) :=
  db <- getDb ;;
  match db with
  | None => ret []
  | Some s =>
      ret (sortBy (fun a b => alert_timestamp b <=? alert_timestamp a)
             (filter (fun a => Bool.eqb (isRead a) false) (alerts s)))
  end.

(** [set({ isRead: true })] *)
Definition withRead (a : Alert) : Alert :=
  {| alert_id := alert_id a; alert_sensorId := alert_sensorId a;
     alert_type := alert_type a; alert_severity := alert_severity a;
     alert_message := alert_message a; alert_location := alert_location a;
     isRead := true; isResolved := isResolved a;
     alert_timestamp := alert_timestamp a |}.

Definition markAlertAsRead (id : Z) : M unit :=
  db <- getDb ;;
  match db with
  | None => ret tt
  | Some s =>
      putStore (setAlerts s
        (map (fun a => if alert_id a =? id then withRead a else a) (alerts s)))
  end.

Definition markAllAlertsAsRead : M unit :=
  db <- getDb ;;
  match db with
  | None => ret tt
  | Some s =>
      putStore (setAlerts s
        (map (fun a => if Bool.eqb (isRead a) false then withRead a else a) (alerts s)))
  end.

(** [startOfDay.setHours(0, 0, 0, 0)]: the last local midnight. *)
Definition startOfDay (clk : Clock) : Z :=
  now clk - (now clk + tzOffset clk) mod 86400000.

Definition getAlertsToday (clk : Clock) : M (list Alert) :=
  db <- getDb ;;
  match db with
  | None => ret []
  | Some s =>
      ret (sortBy (fun a b => alert_timestamp b <=? alert_timestamp a)
             (filter (fun a => startOfDay clk <=? alert_timestamp a) (alerts s)))
  end.

Definition getPipeRiskScore (sensorId : Z) : M (option PipeRiskScore) :=
  db <- getDb ;;
  match db with
  | None => ret None
  | Some s =>
      ret (hd_error
             (sortBy (fun a b => lastAnalyzedAt b <=? lastAnalyzedAt a)
                (filter (fun p => prs_sensorId p =? sensorId) (pipeRiskScores s))))
  end.

Definition getAllPipeRiskScores : M (list PipeRiskScore) :=
  db <- getDb ;;
  match db with
  | None => ret []
  | Some s =>
      ret (sortBy (fun a b => prs_riskScore b <=? prs_riskScore a) (pipeRiskScores s))
  end.

(** ** Leak classification (server/aiService.ts) *)

Inductive LeakType := pinhole | joint | burst | seepage | unknown.

Record LeakClassification := {
  lc_type : LeakType;
  lc_severity : Severity;
  estimatedFlowLoss : Z;
  urgency : string
}.

Definition urgencyMap (severity : Severity) : string :=
  match severity with
  | critical => "Immediate action required. Shut off water supply if possible."
  | high => "Urgent repair needed within 24 hours."
  | medium => "Schedule repair within 1 week."
  | low => "Monitor and plan for repair during next maintenance window."
  end.

(** The mutable locals [type], [severity], [estimatedFlowLoss] after the
    chain of threshold bands. *)
Definition classifyBands (avgFlow avgPressure flowVariance : Q)
    : LeakType * Severity * Q :=
  if Qltb 5000 avgFlow && Qltb avgPressure 2000
  then (burst, critical, avgFlow / 100 * 60)%Q
  else if Qltb 3000 avgFlow && Qltb avgPressure 4000 && Qltb flowVariance 1000000
  then (joint, high, (avgFlow - 2000) / 100 * 60)%Q
  else if Qltb 2000 avgFlow && Qltb avgFlow 4000 && Qltb flowVariance 500000
  then (pinhole, medium, (avgFlow - 1500) / 100 * 60)%Q
  else if Qltb 1500 avgFlow && Qltb avgFlow 2500
  then (seepage, low, (avgFlow - 1200) / 100 * 60)%Q
  else (unknown, medium, 0%Q).

Definition classifyLeak (sensorId : Z) : M LeakClassification :=
  sensor <- getSensorById sensorId ;;
  readings <- getRecentFlowReadings sensorId 20 ;;
  if match sensor with None => true | Some _ => false end || (len readings <? 5)
  then ret {| lc_type := unknown; lc_severity := medium; estimatedFlowLoss := 0;
              urgency := "Unable to classify - insufficient data" |}
  else
    let flowRates := map flowRate readings in
    let pressures := map pressure readings in
    let avgFlow := mean flowRates in
    let avgPressure := mean pressures in
    let flowVariance := variance flowRates avgFlow in
    let '(type, severity, estimatedFlowLoss) :=
      classifyBands avgFlow avgPressure flowVariance in
    ret {| lc_type := type; lc_severity := severity;
           estimatedFlowLoss := Z.max 0 (round estimatedFlowLoss);
           urgency := urgencyMap severity |}.

(** ** System health (server/aiService.ts) *)

Record SystemHealthReport := {
  overallHealth : Z;
  totalSensors : Z;
  activeSensors : Z;
  warningCount : Z;
  leakCount : Z;
  predictions : list PredictionResult
}.

Definition isStatus (st : SensorStatus) (s : Sensor) : bool :=
  match st, sensor_status s with
  | sensor_active, sensor_active | sensor_leak, sensor_leak
  | sensor_warning, sensor_warning | sensor_offline, sensor_offline => true
  | _, _ => false
  end.

(** The loop that calculates predictions for all sensors. *)
Fixpoint predictAll (clk : Clock) (allSensors : list Sensor)
    (predictions : list PredictionResult) : M (list PredictionResult) :=
  match allSensors with
  | [] => ret predictions
  | sensor :: rest =>
      prediction <- calculatePipeRiskScore clk (sensor_id sensor) ;;
      predictAll clk rest
        match prediction with
        | Some p => predictions ++ [p]
        | None => predictions
        end
  end.

Definition generateSystemHealthReport (clk : Clock) : M SystemHealthReport :=
  allSensors <- getAllSensors ;;
  alertsToday <- getAlertsToday clk ;;
  let activeSensors := len (filter (fun s => negb (isStatus sensor_offline s)) allSensors) in
  let warningSensors := len (filter (isStatus sensor_warning) allSensors) in
  let leakSensors := len (filter (isStatus sensor_leak) allSensors) in
  predictions <- predictAll clk allSensors [] ;;
  let healthScore := 100 in
  let healthScore := healthScore - leakSensors * 20 in
  let healthScore := healthScore - warningSensors * 10 in
  let healthScore := healthScore - (len allSensors - activeSensors) * 5 in
  let healthScore := healthScore - len alertsToday * 2 in
  let highRiskPipes := filter (fun p => 50 <? riskScore p) predictions in
  let healthScore := healthScore - len highRiskPipes * 5 in
  ret {| overallHealth := Z.max 0 (Z.min 100 healthScore);
         totalSensors := len allSensors;
         activeSensors := activeSensors;
         warningCount := warningSensors;
         leakCount := leakSensors;
         predictions := sortBy (fun a b => riskScore b <=? riskScore a) predictions |}.

(** ** The simulation procedures (server/routers.ts) *)

Record ResetResult := { reset_success : bool; resetCount : Z }.

Definition resetSystem : M ResetResult :=
  sensors <- getAllSensors ;;
  forEach sensors (fun sensor => updateSensorStatus (sensor_id sensor) sensor_active) ;;;
  ret {| reset_success := true; resetCount := len sensors |}.

Record SeedResult := { seed_success : bool; seed_message : string; seed_count : Z }.

Definition defaultSensors : list InsertSensor :=
  [ {| is_name := "Main Pipe"; is_description := "Main water supply pipe";
       is_location := "Upper floor – Kitchen"; is_pipeType := Some "main";
       is_positionX := 30; is_positionY := 25 |};
    {| is_name := "Secondary Pipe"; is_description := "Secondary distribution pipe";
       is_location := "Ground floor – Bathroom"; is_pipeType := Some "secondary";
       is_positionX := 70; is_positionY := 45 |};
    {| is_name := "Branch Pipe"; is_description := "Branch pipe to utility room";
       is_location := "Basement – Utility Room"; is_pipeType := Some "branch";
       is_positionX := 50; is_positionY := 75 |} ].

(** [for (const sensor of l) await db.createSensor(sensor)]; a throw
    ends the loop: [None]. *)
Fixpoint createAll (l : list InsertSensor) : M (option unit) :=
  match l with
  | [] => ret (Some tt)
  | sensor :: rest =>
      created <- createSensor sensor ;;
      match created with
      | None => ret None
      | Some _ => createAll rest
      end
  end.

Definition seedSensors : M (option SeedResult) :=
  existing <- getAllSensors ;;
  if 0 <? len existing
  then ret (Some {| seed_success := true; seed_message := "Sensors already exist";
                    seed_count := len existing |})
  else
    created <- createAll defaultSensors ;;
    match created with
    | None => ret None
    | Some _ =>
        ret (Some {| seed_success := true; seed_message := "Sensors created";
                     seed_count := len defaultSensors |})
    end.

(** ** Reading the groups of the pattern learner *)

(** The key [learnFlowPatterns] files a reading under. *)
Definition readingKey (clk : Clock) (reading : FlowReading) : Z * Z :=
  (getDay clk (timestamp reading), getHours clk (timestamp reading)).

Definition sameKey (k k' : Z * Z) : bool := (fst k =? fst k') && (snd k =? snd k').

(** [patterns.get(key)] *)
Fixpoint groupOf (key : Z * Z) (m : list ((Z * Z) * list Z)) : option (list Z) :=
  match m with
  | [] => None
  | (k, vs) :: r => if sameKey k key then Some vs else groupOf key r
  end.

(** ** More sample stores *)

Module Fixture.

Definition alert (id sid ts : Z) (read : bool) : Alert :=
  {| alert_id := id; alert_sensorId := sid; alert_type := alert_leak;
     alert_severity := high; alert_message := "Leak detected in sensor #1";
     alert_location := "Upper floor - Kitchen"; isRead := read;
     isResolved := false; alert_timestamp := ts |}.

(** A burst: five readings of flow 60 and 15 PSI. *)
Definition burstPipe : Db :=
  Sample.store [Sample.mainPipe sensor_leak]
    (map (fun i => Sample.reading i 1 6000 1500 (i * 1000)) [1; 2; 3; 4; 5]) [].

(** High pressure behind a blocked pipe. *)
Definition blockedPipe : Db :=
  Sample.store [Sample.mainPipe sensor_active]
    [Sample.reading 1 1 50 6000 180000; Sample.reading 2 1 50 6000 120000;
     Sample.reading 3 1 50 6000 60000] [].

(** A leaking branch pipe without readings. *)
Definition leakingBranch : Db :=
  Sample.store [Sample.pipe 3 "Branch Pipe" "Basement - Utility Room" "branch" sensor_leak]
    [] [].

(** Three pipes reporting the same flow. *)
Definition evenFlows : Db :=
  Sample.store Sample.threePipes
    [Sample.reading 1 1 2000 4000 60000; Sample.reading 2 2 2000 4000 60000;
     Sample.reading 3 3 2000 4000 60000] [].

(** Readings of one sensor, one second apart, with ids from [id] on. *)
Fixpoint series (id sid psi ago : Z) (flows : list Z) : list FlowReading :=
  match flows with
  | [] => []
  | flow :: rest =>
      Sample.reading id sid flow psi ago :: series (id + 1) sid psi (ago + 1000) rest
  end.

(** Five readings of mean flow 15 at 40 PSI. *)
Definition slowPipe : Db :=
  Sample.store [Sample.mainPipe sensor_active]
    (series 1 1 4000 1000 [1000; 2000; 1500; 1500; 1500]) [].

(** Twenty-five readings of mean 12 and standard deviation 3.6: as reals
    the deviation equals 0.3 times the mean, as doubles it exceeds
    12 * 0.3 = 3.5999999999999996. *)
Definition unevenFlow : Db :=
  Sample.store [Sample.mainPipe sensor_active]
    (series 1 1 4000 1000 ([21; 21; 3; 3] ++ repeat 12 21%nat)) [].

(** Four pipes whose mean flows are 32/47, 0, 0 and 367/77: the first is
    below half the overall mean as a quotient, and not once the means
    are read with four digits (0.6809 and 4.7662). *)
Definition roundedMeans : Db :=
  Sample.store (Sample.threePipes
                ++ [Sample.pipe 4 "Garden Pipe" "Garden" "branch" sensor_active])
    (series 1 1 4000 1000 (repeat 1 32%nat ++ repeat 0 15%nat)
     ++ series 48 2 4000 1000 [0]
     ++ series 49 3 4000 1000 [0]
     ++ series 50 4 4000 1000 (repeat 5 59%nat ++ repeat 4 18%nat)) [].

End Fixture.

(** * Properties *)

(** ** Comparisons *)

Lemma Qltb_lt (x y : Q) : Qltb x y = true <-> (x < y)%Q.
Proof.
  unfold Qltb. rewrite negb_true_iff. split; intro H.
  - apply Qnot_le_lt. intro L. apply Qle_bool_iff in L. congruence.
  - destruct (Qle_bool y x) eqn:E; [ | reflexivity ].
    apply Qle_bool_iff in E. exfalso. exact (Qlt_not_le _ _ H E).
Qed.

Lemma Qltb_ge (x y : Q) : Qltb x y = false <-> (y <= x)%Q.
Proof.
  unfold Qltb. rewrite negb_false_iff. apply Qle_bool_iff.
Qed.

(** *** The symbolic square root

    [sqrt_gt] and [gt_sqrt] decide, on rationals, the comparisons with
    the real square root that the source makes. *)

Lemma lt_sqrt_iff (x v : R) : (0 <= v)%R -> (x < sqrt v <-> x < 0 \/ x * x < v)%R.
Proof.
  intro Hv. split.
  - intro H. destruct (Rlt_le_dec x 0) as [Hx | Hx]; [ left; exact Hx | right ].
    rewrite <- (sqrt_sqrt v Hv).
    apply Rmult_le_0_lt_compat; assumption.
  - intros [Hx | Hx].
    + apply (Rlt_le_trans _ 0); [ exact Hx | apply sqrt_pos ].
    + destruct (Rlt_le_dec x 0) as [Hn | Hn];
        [ apply (Rlt_le_trans _ 0); [ exact Hn | apply sqrt_pos ] | ].
      rewrite <- (sqrt_square x Hn). apply sqrt_lt_1_alt.
      split; [ apply Rmult_le_pos; assumption | exact Hx ].
Qed.

Lemma sqrt_lt_iff (x v : R) : (0 <= v)%R -> (sqrt v < x <-> 0 < x /\ v < x * x)%R.
Proof.
  intro Hv. split.
  - intro H. pose proof (sqrt_pos v) as Hs.
    assert (Hx : (0 < x)%R) by (apply (Rle_lt_trans _ (sqrt v)); assumption).
    split; [ exact Hx | ].
    rewrite <- (sqrt_sqrt v Hv) at 1.
    apply Rmult_le_0_lt_compat; assumption.
  - intros [Hx Hlt]. rewrite <- (sqrt_square x) by (apply Rlt_le; exact Hx).
    apply sqrt_lt_1_alt. split; assumption.
Qed.

Lemma sqrt_gt_real (v x : Q) :
  (0 <= v)%Q -> sqrt_gt v x = true <-> (Q2R x < sqrt (Q2R v))%R.
Proof.
  intro Hv. apply Qle_Rle in Hv. rewrite RMicromega.Q2R_0 in Hv.
  rewrite (lt_sqrt_iff _ _ Hv). unfold sqrt_gt.
  rewrite orb_true_iff, !Qltb_lt. rewrite <- Q2R_mult.
  split; (intros [H | H]; [ left | right ]).
  - apply Qlt_Rlt in H. rewrite RMicromega.Q2R_0 in H. exact H.
  - apply Qlt_Rlt. exact H.
  - apply Rlt_Qlt. rewrite RMicromega.Q2R_0. exact H.
  - apply Rlt_Qlt. exact H.
Qed.

Lemma gt_sqrt_real (x v : Q) :
  (0 <= v)%Q -> gt_sqrt x v = true <-> (sqrt (Q2R v) < Q2R x)%R.
Proof.
  intro Hv. apply Qle_Rle in Hv. rewrite RMicromega.Q2R_0 in Hv.
  rewrite (sqrt_lt_iff _ _ Hv). unfold gt_sqrt.
  rewrite andb_true_iff, !Qltb_lt. rewrite <- Q2R_mult.
  split; intros [H1 H2]; split.
  - apply Qlt_Rlt in H1. rewrite RMicromega.Q2R_0 in H1. exact H1.
  - apply Qlt_Rlt. exact H2.
  - apply Rlt_Qlt. rewrite RMicromega.Q2R_0. exact H1.
  - apply Rlt_Qlt. exact H2.
Qed.

(** [roundSqrt v] is the integer nearest to the square root of [v], ties
    going up, as [Math.round] has it. *)
Lemma roundSqrt_bounds (v : Q) :
  (0 <= v)%Q ->
  let r := roundSqrt v in
  0 <= r
  /\ (4 * v < inject_Z ((2 * r + 1) * (2 * r + 1)))%Q
  /\ (1 <= r -> (inject_Z ((2 * r - 1) * (2 * r - 1)) <= 4 * v)%Q).
Proof.
  intros Hv r. unfold roundSqrt in r.
  set (n := Qfloor (4 * v)) in *.
  assert (Hn : 0 <= n).
  { change 0 with (Qfloor 0). apply Qfloor_resp_le.
    apply Qmult_le_0_compat; [ discriminate | exact Hv ]. }
  pose proof (Z.sqrt_spec n Hn) as [Hlo Hhi].
  pose proof (Z.sqrt_nonneg n) as Hm.
  set (m := Z.sqrt n) in *.
  assert (Hr : 2 * r <= m + 1 <= 2 * r + 1).
  { subst r. pose proof (Z.div_mod (m + 1) 2 ltac:(lia)).
    pose proof (Z.mod_pos_bound (m + 1) 2 ltac:(lia)). lia. }
  split; [ subst r; apply Z.div_pos; lia | ]. split.
  - eapply Qlt_le_trans; [ apply (Qlt_floor (4 * v)) | ]. fold n.
    rewrite <- Zle_Qle. nia.
  - intro H1. eapply Qle_trans; [ | apply (Qfloor_le (4 * v)) ]. fold n.
    rewrite <- Zle_Qle. nia.
Qed.

Lemma Q2R_inject_Z (z : Z) : Q2R (inject_Z z) = IZR z.
Proof.
  unfold Q2R. cbn. rewrite Rinv_1. apply Rmult_1_r.
Qed.

Lemma roundSqrt_real (v : Q) :
  (0 <= v)%Q ->
  (IZR (roundSqrt v) - 1 / 2 <= sqrt (Q2R v) < IZR (roundSqrt v) + 1 / 2)%R.
Proof.
  intro Hv. destruct (roundSqrt_bounds v Hv) as [H0 [Hhi Hlo]].
  set (r := roundSqrt v) in *.
  assert (HvR : (0 <= Q2R v)%R).
  { apply Qle_Rle in Hv. rewrite RMicromega.Q2R_0 in Hv. exact Hv. }
  apply Qlt_Rlt in Hhi. rewrite Q2R_mult in Hhi.
  change 4%Q with (inject_Z 4) in Hhi. rewrite !Q2R_inject_Z in Hhi.
  rewrite !mult_IZR, !plus_IZR, !mult_IZR in Hhi.
  assert (Hr0 : (0 <= IZR r)%R) by (apply IZR_le; exact H0).
  split.
  - apply Rnot_lt_le. intro H. apply (sqrt_lt_iff _ _ HvR) in H. destruct H as [Hpos Hlt].
    assert (H1 : 1 <= r).
    { destruct (Z.eq_dec r 0) as [E | E]; [ rewrite E in Hpos; lra | lia ]. }
    specialize (Hlo H1). apply Qle_Rle in Hlo. rewrite Q2R_mult in Hlo.
    change 4%Q with (inject_Z 4) in Hlo. rewrite !Q2R_inject_Z in Hlo.
    rewrite !mult_IZR, !minus_IZR, !mult_IZR in Hlo. lra.
  - apply (sqrt_lt_iff _ _ HvR). split; lra.
Qed.

(** ** Running computations *)

Lemma run_pair {A} (m : M A) (d : Db) : m d = (result m d, after m d).
Proof. unfold result, after. destruct (m d); reflexivity. Qed.

Lemma result_bind {A B} (m : M A) (k : A -> M B) (d : Db) :
  result (bind m k) d = result (k (result m d)) (after m d).
Proof. unfold result, after, bind. destruct (m d); reflexivity. Qed.

Lemma after_bind {A B} (m : M A) (k : A -> M B) (d : Db) :
  after (bind m k) d = after (k (result m d)) (after m d).
Proof. unfold result, after, bind. destruct (m d); reflexivity. Qed.

Lemma readOnly_ret {A} (a : A) : readOnly (ret a).
Proof. intro d. reflexivity. Qed.

Lemma readOnly_bind {A B} (m : M A) (k : A -> M B) :
  readOnly m -> (forall a, readOnly (k a)) -> readOnly (bind m k).
Proof.
  intros Hm Hk d. rewrite after_bind, Hm. apply Hk.
Qed.

Lemma readOnly_query {A} (q : Db -> A) :
  readOnly (db <- getDb ;; ret (q db)).
Proof. intro d. reflexivity. Qed.

Ltac read_only_query :=
  let d := fresh "d" in
  intro d; unfold after; cbn; destruct d; reflexivity.

Lemma readOnly_getSensorById id : readOnly (getSensorById id).
Proof. unfold getSensorById. read_only_query. Qed.

Lemma readOnly_getRecentFlowReadings sid limit :
  readOnly (getRecentFlowReadings sid limit).
Proof. unfold getRecentFlowReadings. read_only_query. Qed.

Lemma readOnly_getFlowReadingsInTimeRange sid t0 t1 :
  readOnly (getFlowReadingsInTimeRange sid t0 t1).
Proof. unfold getFlowReadingsInTimeRange. read_only_query. Qed.

Lemma readOnly_getAggregatedFlowData clk w : readOnly (getAggregatedFlowData clk w).
Proof. unfold getAggregatedFlowData. read_only_query. Qed.

Lemma readOnly_getFlowPattern sid h d : readOnly (getFlowPattern sid h d).
Proof. unfold getFlowPattern. read_only_query. Qed.

Lemma readOnly_getAllFlowPatternsForSensor sid :
  readOnly (getAllFlowPatternsForSensor sid).
Proof. unfold getAllFlowPatternsForSensor. read_only_query. Qed.

Lemma readOnly_checkFlowAnomaly clk sid flow : readOnly (checkFlowAnomaly clk sid flow).
Proof.
  unfold checkFlowAnomaly. apply readOnly_bind.
  - apply readOnly_getFlowPattern.
  - intros [p | ]; [ destruct (sampleCount p <? 10) | ]; apply readOnly_ret.
Qed.

Lemma readOnly_calculateFlowVariance clk : readOnly (calculateFlowVariance clk).
Proof.
  unfold calculateFlowVariance. apply readOnly_bind.
  - apply readOnly_getAggregatedFlowData.
  - intro a. destruct (len a <? 2); apply readOnly_ret.
Qed.

Lemma readOnly_analyzeFlowOverTime clk sid w : readOnly (analyzeFlowOverTime clk sid w).
Proof.
  unfold analyzeFlowOverTime.
  apply readOnly_bind; [ apply readOnly_getFlowReadingsInTimeRange | intro readings ].
  apply readOnly_bind; [ apply readOnly_getSensorById | intros [sensor | ] ].
  - destruct (len readings <? 3); [ apply readOnly_ret | ].
    apply readOnly_bind; [ apply readOnly_checkFlowAnomaly | intro a; apply readOnly_ret ].
  - apply readOnly_ret.
Qed.

(** What [analyzeFlowOverTime] returns, in terms of what its queries
    return on the same handle. *)
Lemma analyzeFlowOverTime_result clk sid w db :
  let readings :=
    result (getFlowReadingsInTimeRange sid (now clk - w * 60 * 1000) (now clk)) db in
  result (analyzeFlowOverTime clk sid w) db =
  match result (getSensorById sid) db with
  | None =>
      {| sensorId := sid; status := normal; confidence := 0;
         message := "Sensor not found"; severity := low;
         factors := ["sensor_not_found"] |}
  | Some sensor =>
      if len readings <? 3
      then {| sensorId := sid; status := normal; confidence := 50;
              message := "Insufficient data for analysis"; severity := low;
              factors := ["insufficient_data"] |}
      else
        let avgFlow := mean (map flowRate readings) in
        let avgPressure := mean (map pressure readings) in
        let v :=
          rulePattern (result (checkFlowAnomaly clk sid avgFlow) db)
            (ruleBlockage avgFlow avgPressure
               (ruleLowPressure avgPressure
                  (ruleHighVariance (Double.stdDev (map flowRate readings))
                     (Double.mean (map flowRate readings))
                     {| v_factors := []; v_status := normal; v_severity := low;
                        v_confidence := 70 |}))) in
        {| sensorId := sid; status := v_status v; confidence := v_confidence v;
           message := generateAnalysisMessage (v_status v) (v_factors v)
                        (sensor_location sensor);
           severity := v_severity v; factors := v_factors v |}
  end.
Proof.
  intro readings. unfold analyzeFlowOverTime.
  rewrite result_bind, readOnly_getFlowReadingsInTimeRange.
  rewrite result_bind, readOnly_getSensorById.
  fold readings.
  destruct (result (getSensorById sid) db) as [sensor | ]; [ | reflexivity ].
  destruct (len readings <? 3); [ reflexivity | ].
  rewrite result_bind, readOnly_checkFlowAnomaly. reflexivity.
Qed.

Lemma checkFlowAnomaly_result clk sid flow db :
  result (checkFlowAnomaly clk sid flow) db =
  match result (getFlowPattern sid (getHours clk (now clk)) (getDay clk (now clk))) db with
  | None => {| isAnomaly := false; deviation := 0; expectedRange := None |}
  | Some p =>
      if sampleCount p <? 10
      then {| isAnomaly := false; deviation := 0; expectedRange := None |}
      else
        {| isAnomaly :=
             Qltb flow (inject_Z (avgFlowRate p - 2 * stdDeviation p))
             || Qltb (inject_Z (avgFlowRate p + 2 * stdDeviation p)) flow;
           deviation := (flow - inject_Z (avgFlowRate p))%Q;
           expectedRange :=
             Some {| min := inject_Z (avgFlowRate p - 2 * stdDeviation p) / 100;
                     max := inject_Z (avgFlowRate p + 2 * stdDeviation p) / 100 |} |}
  end.
Proof.
  unfold checkFlowAnomaly. rewrite result_bind, readOnly_getFlowPattern.
  destruct (result (getFlowPattern _ _ _) db) as [p | ]; [ | reflexivity ].
  destruct (sampleCount p <? 10); reflexivity.
Qed.

(** ** Smart monitoring: the early returns *)

(** C10: for a sensor id without a Sensor record, [analyzeFlowOverTime]
    returns (it is total, nothing is thrown) status normal, confidence
    0, severity low and exactly the factor sensor_not_found; this is
    not the insufficient-data answer, whose confidence is 50. *)
Theorem analyzeFlowOverTime_sensor_not_found clk sid w db :
  result (getSensorById sid) db = None ->
  let r := result (analyzeFlowOverTime clk sid w) db in
  status r = normal /\ confidence r = 0 /\ severity r = low
  /\ factors r = ["sensor_not_found"]
  /\ factors r <> ["insufficient_data"] /\ confidence r <> 50.
Proof.
  intros H r. subst r. rewrite analyzeFlowOverTime_result, H. cbn.
  repeat split; try reflexivity; discriminate.
Qed.

Lemma analyzeFlowOverTime_sensor_not_found_witness :
  result (getSensorById 1) Sample.noSensors = None
  /\ factors (result (analyzeFlowOverTime Sample.clock 1 5) Sample.noSensors)
     = ["sensor_not_found"].
Proof.
  split; [ reflexivity | ].
  apply (analyzeFlowOverTime_sensor_not_found Sample.clock 1 5 Sample.noSensors).
  reflexivity.
Defined.

(** C3: for a known sensor with fewer than three readings in the window
    [now - windowMinutes, now], [analyzeFlowOverTime] returns status
    normal, confidence 50 and exactly the factor insufficient_data. *)
Theorem analyzeFlowOverTime_insufficient_data clk sid w db sensor :
  result (getSensorById sid) db = Some sensor ->
  len (result (getFlowReadingsInTimeRange sid (now clk - w * 60 * 1000) (now clk)) db) < 3 ->
  let r := result (analyzeFlowOverTime clk sid w) db in
  status r = normal /\ confidence r = 50 /\ factors r = ["insufficient_data"].
Proof.
  intros Hs Hn r. subst r. rewrite analyzeFlowOverTime_result, Hs.
  apply Z.ltb_lt in Hn. rewrite Hn. cbn. auto.
Qed.

Lemma analyzeFlowOverTime_insufficient_data_witness :
  let r := result (analyzeFlowOverTime Sample.clock 1 5) Sample.twoReadings in
  status r = normal /\ confidence r = 50 /\ factors r = ["insufficient_data"].
Proof.
  apply (analyzeFlowOverTime_insufficient_data Sample.clock 1 5 Sample.twoReadings
           (Sample.mainPipe sensor_active)).
  - reflexivity.
  - vm_compute. reflexivity.
Defined.

(** ** The anomaly checker *)

(** C4: when the bucket of the current hour and weekday is absent, or
    has fewer than ten samples, [checkFlowAnomaly] answers
    isAnomaly = false, deviation = 0, expectedRange = null, whatever the
    current flow. *)
Theorem checkFlowAnomaly_cold_start clk sid currentFlow db :
  let bucket :=
    result (getFlowPattern sid (getHours clk (now clk)) (getDay clk (now clk))) db in
  bucket = None \/ (exists p, bucket = Some p /\ sampleCount p < 10) ->
  let r := result (checkFlowAnomaly clk sid currentFlow) db in
  isAnomaly r = false /\ deviation r = 0%Q /\ expectedRange r = None.
Proof.
  intros bucket H r. subst r. rewrite checkFlowAnomaly_result. fold bucket.
  destruct H as [-> | [p [-> Hp]]].
  - cbn. auto.
  - apply Z.ltb_lt in Hp. rewrite Hp. cbn. auto.
Qed.

Lemma checkFlowAnomaly_cold_start_witness :
  let r := result (checkFlowAnomaly Sample.clock 1 5000) Sample.coldStart in
  isAnomaly r = false /\ deviation r = 0%Q /\ expectedRange r = None.
Proof.
  apply (checkFlowAnomaly_cold_start Sample.clock 1 5000 Sample.coldStart).
  right. exists (Sample.bucket 9). split; [ reflexivity | ]. cbn. lia.
Defined.

(** C5, as stated, fails: with a learned bucket of average 1000 and
    deviation 100 the range returned is not [800, 1200]; its lower end
    is 8. *)
Lemma checkFlowAnomaly_range_not_in_reading_units :
  let db := Sample.lowPressureLearned in
  let r := result (checkFlowAnomaly Sample.clock 1 900) db in
  exists p rg,
    result (getFlowPattern 1 (getHours Sample.clock (now Sample.clock))
              (getDay Sample.clock (now Sample.clock))) db = Some p
    /\ 10 <= sampleCount p
    /\ expectedRange r = Some rg
    /\ ~ (min rg == inject_Z (avgFlowRate p - 2 * stdDeviation p))%Q
    /\ (min rg == 8)%Q.
Proof.
  cbv zeta. eexists. eexists.
  split; [ reflexivity | ]. split; [ cbn; lia | ].
  split; [ reflexivity | ]. split; [ | reflexivity ].
  intro H. vm_compute in H. discriminate H.
Qed.

(** C5, amended: with a bucket of at least ten samples,
    [checkFlowAnomaly] flags the flow exactly when it lies outside
    [avg - 2 sd, avg + 2 sd], reports deviation = flow - avg, and returns
    as expected range that interval divided by 100 (flow units instead
    of hundredths). *)
Theorem checkFlowAnomaly_learned clk sid currentFlow db p :
  result (getFlowPattern sid (getHours clk (now clk)) (getDay clk (now clk))) db = Some p ->
  10 <= sampleCount p ->
  let r := result (checkFlowAnomaly clk sid currentFlow) db in
  let lo := inject_Z (avgFlowRate p - 2 * stdDeviation p) in
  let hi := inject_Z (avgFlowRate p + 2 * stdDeviation p) in
  (exists rg, expectedRange r = Some rg
              /\ (min rg == lo / 100)%Q /\ (max rg == hi / 100)%Q)
  /\ (isAnomaly r = true <-> (currentFlow < lo \/ hi < currentFlow)%Q)
  /\ (deviation r == currentFlow - inject_Z (avgFlowRate p))%Q.
Proof.
  intros Hp Hn r lo hi. subst r. rewrite checkFlowAnomaly_result, Hp.
  apply Z.ltb_ge in Hn. rewrite Hn. cbn [isAnomaly deviation expectedRange].
  split; [ | split ].
  - eexists. split; [ reflexivity | ]. cbn [min max]. split; reflexivity.
  - rewrite orb_true_iff, !Qltb_lt. reflexivity.
  - reflexivity.
Qed.

Lemma checkFlowAnomaly_learned_witness :
  isAnomaly (result (checkFlowAnomaly Sample.clock 1 2000) Sample.lowPressureLearned)
  = true
  <-> (2000 < inject_Z (1000 - 2 * 100) \/ inject_Z (1000 + 2 * 100) < 2000)%Q.
Proof.
  apply (checkFlowAnomaly_learned Sample.clock 1 2000 Sample.lowPressureLearned
           (Sample.bucket 10)).
  - reflexivity.
  - cbn. lia.
Defined.

(** ** Smart monitoring: classification and effects *)

(** C9, as stated, fails: three readings of 18 PSI make the analysis
    answer leak for a sensor stored as active, and yet the call leaves
    no Alert behind and the sensor is still stored as active. *)
Lemma analyzeFlowOverTime_leak_leaves_no_alert :
  let db := Sample.lowPressure in
  let m := analyzeFlowOverTime Sample.clock 1 5 in
  status (result m db) = leak
  /\ option_map sensor_status (result (getSensorById 1) db) = Some sensor_active
  /\ exists s', after m db = Some s'
                /\ alerts s' = []
                /\ map sensor_status (sensors s') = [sensor_active].
Proof.
  cbv zeta. split; [ vm_compute; reflexivity | ].
  split; [ reflexivity | ].
  eexists. split; [ vm_compute; reflexivity | ]. split; reflexivity.
Qed.

(** C9, amended: [analyzeFlowOverTime] writes nothing.  Whatever it
    classifies, the store after the call is the store before it: no
    Alert is created and no Sensor record changes, on the first call as
    on any repeated one. *)
Theorem analyzeFlowOverTime_writes_nothing clk sid w db :
  after (analyzeFlowOverTime clk sid w) db = db
  /\ after (analyzeFlowOverTime clk sid w ;;; analyzeFlowOverTime clk sid w) db = db.
Proof.
  split.
  - apply readOnly_analyzeFlowOverTime.
  - rewrite after_bind, !readOnly_analyzeFlowOverTime. reflexivity.
Qed.

(** C6, as stated, fails: with three readings of 18 PSI and a learned
    bucket that the mean flow falls outside of, the confidence is 95,
    not 85. *)
Lemma analyzeFlowOverTime_low_pressure_confidence_95 :
  let db := Sample.lowPressureLearned in
  let readings :=
    result (getFlowReadingsInTimeRange 1 (now Sample.clock - 5 * 60 * 1000)
              (now Sample.clock)) db in
  let r := result (analyzeFlowOverTime Sample.clock 1 5) db in
  result (getSensorById 1) db <> None
  /\ 3 <= len readings
  /\ (mean (map pressure readings) == 1800)%Q
  /\ status r = leak /\ severity r = high /\ In "low_pressure" (factors r)
  /\ confidence r = 95.
Proof.
  cbv zeta. split; [ discriminate | ].
  split; [ vm_compute; discriminate | ].
  split; [ reflexivity | ].
  vm_compute. repeat split; auto.
Qed.

(** C6, amended: for a known sensor with at least three readings in the
    window and a mean pressure below 3000, [analyzeFlowOverTime] returns
    status leak, severity high and a factor list containing
    low_pressure; the confidence is 85 when the anomaly checker does not
    flag the mean flow, and 95 when it does. *)
Theorem analyzeFlowOverTime_low_pressure clk sid w db sensor :
  let readings :=
    result (getFlowReadingsInTimeRange sid (now clk - w * 60 * 1000) (now clk)) db in
  result (getSensorById sid) db = Some sensor ->
  3 <= len readings ->
  (mean (map pressure readings) < 3000)%Q ->
  let r := result (analyzeFlowOverTime clk sid w) db in
  let flagged :=
    isAnomaly (result (checkFlowAnomaly clk sid (mean (map flowRate readings))) db) in
  status r = leak /\ severity r = high /\ In "low_pressure" (factors r)
  /\ confidence r = (if flagged then 95 else 85).
Proof.
  intros readings Hs Hn Hp r flagged. subst r.
  rewrite analyzeFlowOverTime_result, Hs. fold readings.
  apply Z.ltb_ge in Hn. rewrite Hn. cbv zeta.
  fold flagged.
  assert (Hlow : Qltb (mean (map pressure readings)) 3000 = true)
    by (apply Qltb_lt; exact Hp).
  assert (Hhigh : Qltb 5000 (mean (map pressure readings)) = false).
  { apply Qltb_ge. apply Qlt_le_weak. eapply Qlt_trans; [ exact Hp | reflexivity ]. }
  unfold rulePattern, ruleBlockage, ruleLowPressure.
  rewrite Hlow, Hhigh, andb_false_r.
  unfold flagged.
  destruct (isAnomaly _);
    cbn [status severity factors confidence v_status v_severity v_factors v_confidence];
    repeat split; try reflexivity;
    rewrite !in_app_iff; simpl; auto.
Qed.

Lemma analyzeFlowOverTime_low_pressure_witness :
  let r := result (analyzeFlowOverTime Sample.clock 1 5) Sample.lowPressure in
  status r = leak /\ severity r = high /\ In "low_pressure" (factors r)
  /\ confidence r = 85.
Proof.
  apply (analyzeFlowOverTime_low_pressure Sample.clock 1 5 Sample.lowPressure
           (Sample.mainPipe sensor_active)).
  - reflexivity.
  - vm_compute. discriminate.
  - vm_compute. reflexivity.
Defined.

(** ** Inserting under an auto-increment key *)

Lemma fold_max_bounds (l : list Z) (a : Z) :
  a <= fold_left Z.max l a /\ forall x, In x l -> x <= fold_left Z.max l a.
Proof.
  revert a. induction l as [ | y l IH]; intro a; cbn.
  - split; [ lia | intros x [] ].
  - destruct (IH (Z.max a y)) as [H1 H2]. split; [ lia | ].
    intros x [-> | Hx]; [ lia | auto ].
Qed.

Lemma nextId_fresh {A} (key : A -> Z) (rows : list A) :
  existsb (fun r => key r =? nextId key rows) rows = false.
Proof.
  destruct (existsb _ rows) eqn:E; [ | reflexivity ].
  apply existsb_exists in E. destruct E as [r [Hin Heq]].
  apply Z.eqb_eq in Heq. unfold nextId in Heq.
  pose proof (proj2 (fold_max_bounds (map key rows) 0) (key r) (in_map key _ _ Hin)).
  lia.
Qed.

(** With [id] the only unique key and its value freshly generated, the
    duplicate-key branch is never taken: the row is appended. *)
Lemma insert_fresh_appends {A} (key : A -> Z) (row : A) (update : A -> A)
    (rows : list A) :
  key row = nextId key rows ->
  insertOnDuplicateKeyUpdate key row update rows = rows ++ [row].
Proof.
  intro H. unfold insertOnDuplicateKeyUpdate. rewrite H, nextId_fresh. reflexivity.
Qed.

Lemma upsertPipeRiskScore_appends score s :
  after (upsertPipeRiskScore score) (Some s) =
  Some (setPipeRiskScores s
          (pipeRiskScores s
           ++ [pipeRiskScoreRow (nextId prs_id (pipeRiskScores s)) score])).
Proof.
  unfold upsertPipeRiskScore, after. cbn.
  rewrite insert_fresh_appends by reflexivity. reflexivity.
Qed.

Lemma upsertFlowPattern_appends pattern s :
  after (upsertFlowPattern pattern) (Some s) =
  Some (setFlowPatterns s
          (flowPatterns s
           ++ [flowPatternRow (nextId fp_id (flowPatterns s)) pattern])).
Proof.
  unfold upsertFlowPattern, after. cbn.
  rewrite insert_fresh_appends by reflexivity. reflexivity.
Qed.

(** ** Risk prediction *)

Lemma calculatePipeRiskScore_run clk sid db :
  let recent := result (getRecentFlowReadings sid 50) db in
  let patterns := result (getAllFlowPatternsForSensor sid) db in
  calculatePipeRiskScore clk sid db =
  match result (getSensorById sid) db with
  | None => (None, db)
  | Some sensor =>
      let sc := scoreOf clk sensor recent patterns in
      (Some {| pr_sensorId := sid; sensorName := sensor_name sensor;
               riskScore := s_riskScore sc;
               leakProbability := s_leakProbability sc;
               blockageProbability := s_blockageProbability sc;
               pr_factors := s_factors sc;
               recommendation := recommend (s_riskScore sc) |},
       after (upsertPipeRiskScore (scoreToStore clk sid sc)) db)
  end.
Proof.
  intros recent patterns.
  rewrite (run_pair (calculatePipeRiskScore clk sid) db).
  unfold calculatePipeRiskScore.
  rewrite result_bind, after_bind, readOnly_getSensorById.
  destruct (result (getSensorById sid) db) as [sensor | ]; [ | reflexivity ].
  rewrite result_bind, after_bind, readOnly_getRecentFlowReadings.
  rewrite result_bind, after_bind, readOnly_getAllFlowPatternsForSensor.
  rewrite result_bind, after_bind.
  reflexivity.
Qed.

Lemma calculatePipeRiskScore_some clk sid db r :
  result (calculatePipeRiskScore clk sid) db = Some r ->
  exists sensor sc,
    result (getSensorById sid) db = Some sensor
    /\ sc = scoreOf clk sensor (result (getRecentFlowReadings sid 50) db)
             (result (getAllFlowPatternsForSensor sid) db)
    /\ riskScore r = s_riskScore sc
    /\ leakProbability r = s_leakProbability sc
    /\ blockageProbability r = s_blockageProbability sc
    /\ pr_factors r = s_factors sc.
Proof.
  intro H. unfold result in H. rewrite calculatePipeRiskScore_run in H.
  destruct (result (getSensorById sid) db) as [sensor | ]; [ | discriminate ].
  cbv zeta in H. cbn [fst] in H. injection H as <-.
  eexists. eexists. split; [ reflexivity | ]. split; [ reflexivity | ].
  repeat split; reflexivity.
Qed.

Lemma addRisk_bounds a b label sc :
  0 <= a -> 0 <= b ->
  0 <= s_riskScore sc /\ 0 <= s_leakProbability sc /\ s_blockageProbability sc = 0 ->
  0 <= s_riskScore (addRisk a b label sc)
  /\ 0 <= s_leakProbability (addRisk a b label sc)
  /\ s_blockageProbability (addRisk a b label sc) = 0.
Proof. cbn. lia. Qed.

Lemma scoreOf_bounds clk sensor recent patterns :
  let sc := scoreOf clk sensor recent patterns in
  0 <= s_riskScore sc <= 100 /\ 0 <= s_leakProbability sc <= 100
  /\ s_blockageProbability sc = 0.
Proof.
  set (init := {| s_riskScore := 0; s_leakProbability := 0;
                  s_blockageProbability := 0; s_factors := [] |}).
  assert (H0 : 0 <= s_riskScore init /\ 0 <= s_leakProbability init
               /\ s_blockageProbability init = 0) by (cbn; lia).
  assert (H1 : 0 <= s_riskScore (factorStatus sensor init)
               /\ 0 <= s_leakProbability (factorStatus sensor init)
               /\ s_blockageProbability (factorStatus sensor init) = 0).
  { unfold factorStatus. destruct (sensor_status sensor);
      try exact H0; apply addRisk_bounds; auto; lia. }
  set (s1 := factorStatus sensor init) in *.
  assert (H2 : 0 <= s_riskScore (factorReadings recent s1)
               /\ 0 <= s_leakProbability (factorReadings recent s1)
               /\ s_blockageProbability (factorReadings recent s1) = 0).
  { unfold factorReadings. destruct (10 <=? len recent); [ | exact H1 ].
    cbv zeta. destruct (cvAbove _ _ _); destruct (Qltb _ 3500);
      repeat (apply addRisk_bounds; try lia); exact H1. }
  set (s2 := factorReadings recent s1) in *.
  assert (H3 : 0 <= s_riskScore (factorPattern clk patterns recent s2)
               /\ 0 <= s_leakProbability (factorPattern clk patterns recent s2)
               /\ s_blockageProbability (factorPattern clk patterns recent s2) = 0).
  { unfold factorPattern. destruct (0 <? len patterns); [ | exact H2 ].
    destruct (find _ patterns) as [p | ]; [ | exact H2 ].
    destruct recent as [ | first rest ]; [ exact H2 | ].
    cbv zeta. destruct (_ <? _); [ apply addRisk_bounds; auto; lia | exact H2 ]. }
  set (s3 := factorPattern clk patterns recent s2) in *.
  assert (H4 : 0 <= s_riskScore (factorPipeType sensor s3)
               /\ 0 <= s_leakProbability (factorPipeType sensor s3)
               /\ s_blockageProbability (factorPipeType sensor s3) = 0).
  { unfold factorPipeType. destruct (sensor_pipeType sensor) as [t | ]; [ | exact H3 ].
    destruct (String.eqb t "main"); [ apply addRisk_bounds; auto; lia | exact H3 ]. }
  intro sc. subst sc. unfold scoreOf. fold init. fold s1. fold s2. fold s3.
  unfold normalize. cbn [s_riskScore s_leakProbability s_blockageProbability].
  lia.
Qed.

(** C1, as stated, fails for what is persisted: for a sensor stored as
    leaking the returned leak probability is 80, and the row written
    through [upsertPipeRiskScore] holds 8000. *)
Lemma calculatePipeRiskScore_persists_8000 :
  let m := calculatePipeRiskScore Sample.clock 1 in
  option_map leakProbability (result m Sample.leaking) = Some 80
  /\ exists s', after m Sample.leaking = Some s'
                /\ map prs_leakProbability (pipeRiskScores s') = [8000]
                /\ ~ (0 <= 8000 <= 100).
Proof.
  cbv zeta. split; [ vm_compute; reflexivity | ].
  eexists. split; [ vm_compute; reflexivity | ].
  split; [ reflexivity | lia ].
Qed.

(** C1, amended: every RiskScore that [calculatePipeRiskScore] returns
    has riskScore, leakProbability and blockageProbability within
    [0, 100].  What the call writes is one [upsertPipeRiskScore] of a
    score whose riskScore is the returned one and whose leakProbability
    and blockageProbability are the returned ones multiplied by 100,
    hence within [0, 10000]. *)
Theorem calculatePipeRiskScore_bounds clk sid db r :
  result (calculatePipeRiskScore clk sid) db = Some r ->
  (0 <= riskScore r <= 100
   /\ 0 <= leakProbability r <= 100
   /\ 0 <= blockageProbability r <= 100)
  /\ exists score,
       after (calculatePipeRiskScore clk sid) db = after (upsertPipeRiskScore score) db
       /\ ips_sensorId score = sid
       /\ ips_riskScore score = riskScore r
       /\ ips_leakProbability score = leakProbability r * 100
       /\ ips_blockageProbability score = blockageProbability r * 100
       /\ 0 <= ips_leakProbability score <= 10000
       /\ 0 <= ips_blockageProbability score <= 10000.
Proof.
  intro H. unfold result in H. rewrite calculatePipeRiskScore_run in H.
  unfold after at 1. rewrite calculatePipeRiskScore_run.
  destruct (result (getSensorById sid) db) as [sensor | ] eqn:Hs; [ | discriminate ].
  pose proof (scoreOf_bounds clk sensor (result (getRecentFlowReadings sid 50) db)
                (result (getAllFlowPatternsForSensor sid) db)) as B.
  cbv zeta in *. cbn [fst snd] in *.
  set (sc := scoreOf _ _ _ _) in *. clearbody sc.
  injection H as <-. cbn [riskScore leakProbability blockageProbability].
  split; [ lia | ].
  exists (scoreToStore clk sid sc).
  split; [ reflexivity | ].
  cbn. repeat split; lia.
Qed.

Lemma calculatePipeRiskScore_bounds_witness :
  exists r, result (calculatePipeRiskScore Sample.clock 1) Sample.leaking = Some r
            /\ 0 <= riskScore r <= 100
            /\ 0 <= leakProbability r <= 100
            /\ 0 <= blockageProbability r <= 100.
Proof.
  eexists. split; [ vm_compute; reflexivity | ].
  apply (calculatePipeRiskScore_bounds Sample.clock 1 Sample.leaking).
  vm_compute. reflexivity.
Defined.

(** *** Which factors are listed *)







(** *** The variance around a zero mean *)

Section SumOfSquares.

Variable avg : Q.






End SumOfSquares.







(** ** Comparison across pipes *)

#[local] Instance Qltb_Proper : Proper (Qeq ==> Qeq ==> eq) Qltb.
Proof.
  intros x x' Hx y y' Hy. unfold Qltb. rewrite Hx, Hy. reflexivity.
Qed.

#[local] Instance gt_sqrt_Proper : Proper (Qeq ==> Qeq ==> eq) gt_sqrt.
Proof.
  intros x x' Hx y y' Hy. unfold gt_sqrt. rewrite Hx, Hy. reflexivity.
Qed.

Lemma compareFlowAcrossPipes_result clk db :
  let data := result (getAggregatedFlowData clk 300000) db in
  let avgFlow := Qmean (map agg_avgFlowRate data) in
  let variance := Qvariance (map agg_avgFlowRate data) avgFlow in
  let lowFlowSensors :=
    filter (fun s => Qltb (agg_avgFlowRate s) (avgFlow * (1 # 2))) data in
  let outliers :=
    filter (fun s => gt_sqrt (Qabs (agg_avgFlowRate s - avgFlow) / 2) variance) data in
  result (compareFlowAcrossPipes clk) db =
  if len data <? 2
  then {| isSystemWideIssue := false; affectedSensors := [];
          diagnosis := "Insufficient data for comparison" |}
  else if Qltb (inject_Z (len data) * (7 # 10)) (inject_Z (len lowFlowSensors))
  then {| isSystemWideIssue := true; affectedSensors := map agg_sensorId data;
          diagnosis := "System-wide low flow detected. Possible causes: low water tank level, main supply issue, or scheduled maintenance." |}
  else if 0 <? len outliers
  then {| isSystemWideIssue := false; affectedSensors := map agg_sensorId outliers;
          diagnosis :=
            ("Localized flow anomaly detected in " ++ showZ (len outliers)
             ++ " sensor(s). Possible leak or blockage in specific pipe sections.")%string |}
  else {| isSystemWideIssue := false; affectedSensors := [];
          diagnosis := "All sensors operating within normal parameters." |}.
Proof.
  intros data avgFlow variance lowFlowSensors outliers.
  unfold compareFlowAcrossPipes.
  rewrite result_bind, readOnly_calculateFlowVariance.
  unfold calculateFlowVariance at 1.
  rewrite result_bind, readOnly_getAggregatedFlowData. fold data.
  destruct (len data <? 2); [ reflexivity | ].
  cbn [result ret fst sensorData fv_avgFlow fv_variance].
  fold avgFlow. fold variance. fold lowFlowSensors.
  destruct (Qltb _ (inject_Z (len lowFlowSensors))); [ reflexivity | ].
  fold outliers. destruct (0 <? len outliers); reflexivity.
Qed.

(** C2, as stated, fails: three sensors with mean flows 100, 105 and 98
    are not reported as a system-wide issue, and no sensor is listed. *)
Lemma compareFlowAcrossPipes_similar_flows_not_system_wide :
  let data := result (getAggregatedFlowData Sample.clock 300000) Sample.similarFlows in
  let r := result (compareFlowAcrossPipes Sample.clock) Sample.similarFlows in
  map agg_sensorId data = [1; 2; 3]
  /\ Forall2 Qeq (map agg_avgFlowRate data) [100; 105; 98]%Q
  /\ isSystemWideIssue r = false /\ affectedSensors r = [].
Proof.
  cbv zeta. split; [ reflexivity | ].
  split; [ repeat constructor | ].
  split; vm_compute; reflexivity.
Qed.

Lemma three_means {A} (f : A -> Q) (data : list A) (x y z : Q) :
  Forall2 Qeq (map f data) [x; y; z] ->
  exists a b c, data = [a; b; c] /\ (f a == x /\ f b == y /\ f c == z)%Q.
Proof.
  destruct data as [ | a [ | b [ | c [ | d data ]]]]; cbn; intro H;
    repeat match goal with
           | H : Forall2 _ _ _ |- _ => inversion H; clear H; subst
           end.
  exists a, b, c. auto.
Qed.

(** C2, amended.  For a dataset of exactly three sensors with mean
    flows 100, 105 and 98, [compareFlowAcrossPipes] reports no
    system-wide issue and lists no sensor: none is below half the
    overall mean and none is an outlier.  Whenever at least two sensors
    have data and the fraction of sensors whose mean flow is below
    0.5 times the overall mean exceeds 0.7, it reports a system-wide
    issue and lists all the sensors. *)
Theorem compareFlowAcrossPipes_system_wide clk db :
  let data := result (getAggregatedFlowData clk 300000) db in
  let r := result (compareFlowAcrossPipes clk) db in
  (Forall2 Qeq (map agg_avgFlowRate data) [100; 105; 98]%Q ->
   isSystemWideIssue r = false /\ affectedSensors r = [])
  /\ (2 <= len data ->
      let overall := Qmean (map agg_avgFlowRate data) in
      let low := filter (fun s => Qltb (agg_avgFlowRate s) ((1 # 2) * overall)) data in
      (7 # 10 < inject_Z (len low) / inject_Z (len data))%Q ->
      isSystemWideIssue r = true /\ affectedSensors r = map agg_sensorId data).
Proof.
  intros data r. split.
  - intro H. subst r. rewrite compareFlowAcrossPipes_result. cbv zeta.
    fold data. clearbody data. destruct (three_means _ _ _ _ _ H) as [a [b [c [-> [Ha [Hb Hc]]]]]].
    unfold Qmean, Qvariance, Qsum, len.
    cbn [map fold_left filter List.length]. unfold addSquare.
    rewrite !Ha, !Hb, !Hc. vm_compute. split; reflexivity.
  - intros Hn overall low Hfrac.
    subst r. rewrite compareFlowAcrossPipes_result. cbv zeta. fold data.
    apply Z.ltb_ge in Hn. rewrite Hn. fold overall.
    assert (Hlow : filter (fun s => Qltb (agg_avgFlowRate s) (overall * (1 # 2))) data
                   = low).
    { apply filter_ext. intro s. rewrite (Qmult_comm overall). reflexivity. }
    rewrite Hlow.
    assert (Hpos : (0 < inject_Z (len data))%Q).
    { apply Z.ltb_ge in Hn. unfold Qlt. cbn. lia. }
    assert (Hwide : Qltb (inject_Z (len data) * (7 # 10)) (inject_Z (len low)) = true).
    { apply Qltb_lt. rewrite Qmult_comm.
      apply (Qmult_lt_compat_r _ _ _ Hpos) in Hfrac.
      setoid_replace (inject_Z (len low) / inject_Z (len data) * inject_Z (len data))%Q
        with (inject_Z (len low)) in Hfrac; [ exact Hfrac | ].
      field. intro E. rewrite E in Hpos. exact (Qlt_irrefl 0 Hpos). }
    rewrite Hwide. cbn. auto.
Qed.

Lemma compareFlowAcrossPipes_system_wide_witness :
  (let r := result (compareFlowAcrossPipes Sample.clock) Sample.similarFlows in
   isSystemWideIssue r = false /\ affectedSensors r = [])
  /\ (let r := result (compareFlowAcrossPipes Sample.clock) Sample.lowTank in
      isSystemWideIssue r = true /\ affectedSensors r = [1; 2; 3; 4]).
Proof.
  split.
  - apply (compareFlowAcrossPipes_system_wide Sample.clock Sample.similarFlows).
    repeat constructor.
  - apply (compareFlowAcrossPipes_system_wide Sample.clock Sample.lowTank).
    + vm_compute. discriminate.
    + vm_compute. reflexivity.
Defined.

(** The comparison works on the means as the database returns them.
    With mean flows 32/47, 0, 0 and 367/77 it reads 0.6809, 0, 0 and
    4.7662: the first is not below half of their mean 1.361775, two of
    four pipes are low, and no system-wide issue is reported; the
    quotients themselves would put three of four below half the overall
    mean. *)
Lemma compareFlowAcrossPipes_reads_rounded_means :
  let data := result (getAggregatedFlowData Sample.clock 300000) Fixture.roundedMeans in
  let r := result (compareFlowAcrossPipes Sample.clock) Fixture.roundedMeans in
  let exact := [32 # 47; 0; 0; 367 # 77]%Q in
  Forall2 Qeq (map agg_avgFlowRate data) [6809 # 10000; 0; 0; 47662 # 10000]%Q
  /\ len (filter (fun q => Qltb q ((1 # 2) * Qmean (map agg_avgFlowRate data)))
            (map agg_avgFlowRate data)) = 2
  /\ len (filter (fun q => Qltb q ((1 # 2) * Qmean exact)) exact) = 3
  /\ isSystemWideIssue r = false /\ affectedSensors r = [].
Proof.
  cbv zeta. split; [ vm_compute; repeat constructor | ].
  repeat split; vm_compute; reflexivity.
Qed.

(** ** Pattern learning *)

Lemma learnFlowPatterns_run clk sid db :
  let readings := result (getRecentFlowReadings sid 100) db in
  after (learnFlowPatterns clk sid) db =
  if len readings <? 10 then db
  else after (forEach (groupByDayHour clk readings)
                (fun entry => upsertFlowPattern (learnedPattern sid entry))) db.
Proof.
  intro readings. unfold learnFlowPatterns.
  rewrite after_bind, readOnly_getRecentFlowReadings. fold readings.
  destruct (len readings <? 10); reflexivity.
Qed.

(** With fewer than ten readings [learnFlowPatterns] changes nothing. *)
Lemma learnFlowPatterns_insufficient_history clk sid db :
  len (result (getRecentFlowReadings sid 100) db) < 10 ->
  after (learnFlowPatterns clk sid) db = db.
Proof.
  intro H. rewrite learnFlowPatterns_run. cbv zeta.
  apply Z.ltb_lt in H. rewrite H. reflexivity.
Qed.

Lemma bucketOf_learnedPattern id sid entry :
  bucketOf (flowPatternRow id (learnedPattern sid entry)) = learnedBucket sid entry.
Proof.
  destruct entry as [[day hour] flows]. reflexivity.
Qed.

(** Every group of readings becomes a new row; the rows already stored
    are kept as they are. *)
Lemma forEach_upsert_appends sid entries s :
  exists rows,
    after (forEach entries (fun entry => upsertFlowPattern (learnedPattern sid entry)))
      (Some s)
    = Some (setFlowPatterns s (flowPatterns s ++ rows))
    /\ map bucketOf rows = map (learnedBucket sid) entries.
Proof.
  revert s. induction entries as [ | e entries IH]; intro s.
  - exists []. cbn. rewrite app_nil_r. destruct s; split; reflexivity.
  - cbn [forEach]. rewrite after_bind, upsertFlowPattern_appends.
    destruct (IH (setFlowPatterns s
                    (flowPatterns s
                     ++ [flowPatternRow (nextId fp_id (flowPatterns s))
                           (learnedPattern sid e)])))
      as [rows [Hafter Hkeys]].
    eexists (_ :: rows). split.
    + rewrite Hafter. cbn [setFlowPatterns flowPatterns sensors flowReadings alerts
                            pipeRiskScores].
      rewrite <- app_assoc. reflexivity.
    + cbn [map]. rewrite bucketOf_learnedPattern, Hkeys. reflexivity.
Qed.

Lemma getRecentFlowReadings_setFlowPatterns sid limit s rows :
  result (getRecentFlowReadings sid limit) (Some (setFlowPatterns s rows))
  = result (getRecentFlowReadings sid limit) (Some s).
Proof. reflexivity. Qed.

(** Learning twice over an unchanged history of at least ten readings
    stores every bucket twice: the second run appends a second row for
    each (sensor, hour, weekday), and updates none. *)
Lemma learnFlowPatterns_twice clk sid s :
  let readings := result (getRecentFlowReadings sid 100) (Some s) in
  let learned := map (learnedBucket sid) (groupByDayHour clk readings) in
  10 <= len readings ->
  buckets (after (learnFlowPatterns clk sid ;;; learnFlowPatterns clk sid) (Some s))
  = buckets (Some s) ++ learned ++ learned.
Proof.
  intros readings learned Hn. apply Z.ltb_ge in Hn.
  rewrite after_bind, (learnFlowPatterns_run clk sid (Some s)). cbv zeta.
  fold readings. rewrite Hn.
  destruct (forEach_upsert_appends sid (groupByDayHour clk readings) s)
    as [rows1 [H1 K1]].
  rewrite H1, learnFlowPatterns_run. cbv zeta.
  rewrite getRecentFlowReadings_setFlowPatterns. fold readings. rewrite Hn.
  destruct (forEach_upsert_appends sid (groupByDayHour clk readings)
              (setFlowPatterns s (flowPatterns s ++ rows1)))
    as [rows2 [H2 K2]].
  rewrite H2. cbn [buckets setFlowPatterns flowPatterns].
  rewrite !map_app, K1, K2, <- app_assoc. reflexivity.
Qed.

(** C8 at the failing input: one sensor, ten readings of one hour.  The
    first run stores the bucket (Tuesday, 22h) with ten samples.  The
    second run over the same readings stores that bucket a second time;
    the first row keeps its ten samples. *)
Theorem learnFlowPatterns_twice_duplicates_bucket :
  let once := after (learnFlowPatterns Sample.clock 1) Sample.steady in
  let twice := after (learnFlowPatterns Sample.clock 1) once in
  buckets Sample.steady = []
  /\ buckets once = [(1, 22, 2, 10)]
  /\ buckets twice = [(1, 22, 2, 10); (1, 22, 2, 10)].
Proof.
  cbv zeta. repeat split; vm_compute; reflexivity.
Qed.

(** * Further properties of the query layer and the service *)

(** ** Sorting and limits *)

Section Sorting.

Context {A : Type} (le : A -> A -> bool).

Lemma insertBy_perm (x : A) (l : list A) : Permutation (insertBy le x l) (x :: l).
Proof.
  induction l as [ | y l IH]; cbn.
  - reflexivity.
  - destruct (le x y); [ reflexivity | ].
    rewrite IH. apply perm_swap.
Qed.

Lemma sortBy_perm (l : list A) : Permutation (sortBy le l) l.
Proof.
  induction l as [ | x l IH]; cbn.
  - reflexivity.
  - rewrite insertBy_perm. apply perm_skip, IH.
Qed.

Lemma sortBy_In (x : A) (l : list A) : In x (sortBy le l) <-> In x l.
Proof.
  split; apply Permutation_in; [ | symmetry ]; apply sortBy_perm.
Qed.

Lemma sortBy_len (l : list A) : len (sortBy le l) = len l.
Proof.
  unfold len. rewrite (Permutation_length (sortBy_perm l)). reflexivity.
Qed.

Hypothesis le_total : forall a b, le a b = true \/ le b a = true.
Hypothesis le_trans : forall a b c, le a b = true -> le b c = true -> le a c = true.

Lemma insertBy_sorted (x : A) (l : list A) :
  StronglySorted (fun a b => le a b = true) l ->
  StronglySorted (fun a b => le a b = true) (insertBy le x l).
Proof.
  induction 1 as [ | y l Hs IH Hy]; cbn.
  - constructor; constructor.
  - destruct (le x y) eqn:E.
    + constructor; [ constructor; assumption | ].
      constructor; [ exact E | ].
      eapply Forall_impl; [ | exact Hy ]. intros z Hz. eapply le_trans; eassumption.
    + constructor; [ exact IH | ].
      apply (Permutation_Forall (Permutation_sym (insertBy_perm x l))).
      constructor; [ | exact Hy ].
      destruct (le_total x y) as [H | H]; [ congruence | exact H ].
Qed.

Lemma sortBy_sorted (l : list A) :
  StronglySorted (fun a b => le a b = true) (sortBy le l).
Proof.
  induction l as [ | x l IH]; cbn.
  - constructor.
  - apply insertBy_sorted, IH.
Qed.

End Sorting.

Lemma StronglySorted_weaken {A} (R S : A -> A -> Prop) (l : list A) :
  (forall a b, R a b -> S a b) -> StronglySorted R l -> StronglySorted S l.
Proof.
  intros H. induction 1 as [ | x l Hs IH Hx]; constructor.
  - exact IH.
  - eapply Forall_impl; [ | exact Hx ]. intros y. apply H.
Qed.

Lemma sortBy_ascending {A} (key : A -> Z) (l : list A) :
  StronglySorted (fun a b => key a <= key b)
    (sortBy (fun a b => key a <=? key b) l).
Proof.
  eapply StronglySorted_weaken; [ | apply sortBy_sorted ].
  - intros a b H. apply Z.leb_le. exact H.
  - intros a b. rewrite !Z.leb_le. lia.
  - intros a b c. rewrite !Z.leb_le. lia.
Qed.

Lemma sortBy_descending {A} (key : A -> Z) (l : list A) :
  StronglySorted (fun a b => key b <= key a)
    (sortBy (fun a b => key b <=? key a) l).
Proof.
  eapply StronglySorted_weaken; [ | apply sortBy_sorted ].
  - intros a b H. apply Z.leb_le. exact H.
  - intros a b. rewrite !Z.leb_le. lia.
  - intros a b c. rewrite !Z.leb_le. lia.
Qed.

Lemma StronglySorted_app {A} (R : A -> A -> Prop) (l1 l2 : list A) :
  StronglySorted R (l1 ++ l2) ->
  StronglySorted R l1 /\ forall a b, In a l1 -> In b l2 -> R a b.
Proof.
  induction l1 as [ | x l1 IH]; cbn; intro H.
  - split; [ constructor | intros a b [] ].
  - inversion H as [ | ? ? Hs Hx]; subst. destruct (IH Hs) as [H1 H2]. split.
    + constructor; [ exact H1 | ].
      apply Forall_forall. intros y Hy.
      rewrite Forall_forall in Hx. apply Hx, in_or_app. left. exact Hy.
    + intros a b [<- | Ha] Hb.
      * rewrite Forall_forall in Hx. apply Hx, in_or_app. right. exact Hb.
      * apply H2; assumption.
Qed.

Lemma len_firstn {A} (n : Z) (l : list A) :
  0 <= n -> len (firstn (Z.to_nat n) l) = Z.min n (len l).
Proof.
  intro H. unfold len. rewrite length_firstn. lia.
Qed.

(** ** Flow readings *)

(** X1: [getFlowReadingsInTimeRange] returns exactly the stored readings
    of the sensor whose timestamp lies in [startTime, endTime], each as
    often as it is stored, oldest first. *)
Theorem getFlowReadingsInTimeRange_spec sid t0 t1 s :
  let rs := result (getFlowReadingsInTimeRange sid t0 t1) (Some s) in
  let inRange r := (fr_sensorId r =? sid) && (t0 <=? timestamp r) && (timestamp r <=? t1) in
  Permutation rs (filter inRange (flowReadings s))
  /\ (forall r, In r rs <->
                In r (flowReadings s) /\ fr_sensorId r = sid /\ t0 <= timestamp r <= t1)
  /\ StronglySorted (fun a b => timestamp a <= timestamp b) rs.
Proof.
  cbv zeta. unfold getFlowReadingsInTimeRange, result. cbn. split; [ | split ].
  - apply sortBy_perm.
  - intro r. rewrite sortBy_In, filter_In, !andb_true_iff, Z.eqb_eq, !Z.leb_le.
    tauto.
  - apply sortBy_ascending.
Qed.

(** X2: for a limit that is not negative, [getRecentFlowReadings]
    returns min(limit, n) of the n stored readings of the sensor, newest
    first, and none of the readings left out is newer than one that is
    returned. *)
Theorem getRecentFlowReadings_spec sid limit s :
  0 <= limit ->
  let rs := result (getRecentFlowReadings sid limit) (Some s) in
  let mine := filter (fun r => fr_sensorId r =? sid) (flowReadings s) in
  len rs = Z.min limit (len mine)
  /\ StronglySorted (fun a b => timestamp b <= timestamp a) rs
  /\ exists older,
       Permutation (rs ++ older) mine
       /\ forall a b, In a rs -> In b older -> timestamp b <= timestamp a.
Proof.
  intros Hl rs mine. subst rs. unfold getRecentFlowReadings, result. cbn. fold mine.
  set (sorted := sortBy (fun a b => timestamp b <=? timestamp a) mine).
  assert (Hs : StronglySorted (fun a b => timestamp b <= timestamp a) sorted)
    by apply sortBy_descending.
  rewrite <- (firstn_skipn (Z.to_nat limit) sorted) in Hs.
  destruct (StronglySorted_app _ _ _ Hs) as [H1 H2].
  split; [ | split ].
  - rewrite len_firstn by exact Hl. unfold sorted. rewrite sortBy_len. reflexivity.
  - exact H1.
  - exists (skipn (Z.to_nat limit) sorted). split; [ | exact H2 ].
    rewrite firstn_skipn. apply sortBy_perm.
Qed.

Lemma getRecentFlowReadings_spec_witness :
  exists s, Sample.lowPressure = Some s
            /\ len (result (getRecentFlowReadings 1 2) (Some s)) = 2.
Proof.
  eexists. split; [ reflexivity | ].
  exact (proj1 (getRecentFlowReadings_spec 1 2 _ ltac:(lia))).
Defined.

(** ** Sensors and alerts *)

Lemma hd_error_map {A B} (f : A -> B) (l : list A) :
  hd_error (map f l) = option_map f (hd_error l).
Proof. destruct l; reflexivity. Qed.

Lemma filter_map_commute {A} (p : A -> bool) (g : A -> A) (l : list A) :
  (forall x, p (g x) = p x) -> filter p (map g l) = map g (filter p l).
Proof.
  intro H. induction l as [ | x l IH]; cbn; [ reflexivity | ].
  rewrite H. destruct (p x); cbn; rewrite IH; reflexivity.
Qed.

(** X3: after [updateSensorStatus id st] a lookup of [id] finds the same
    sensor with status [st], a lookup of any other id finds what it
    found before, and the four other tables are untouched. *)
Theorem updateSensorStatus_lookup id st id' s :
  let db' := after (updateSensorStatus id st) (Some s) in
  result (getSensorById id') db' =
  (if id' =? id
   then option_map (fun x => withStatus x st) (result (getSensorById id') (Some s))
   else result (getSensorById id') (Some s))
  /\ exists s', db' = Some s'
                /\ flowReadings s' = flowReadings s /\ alerts s' = alerts s
                /\ flowPatterns s' = flowPatterns s
                /\ pipeRiskScores s' = pipeRiskScores s.
Proof.
  cbv zeta. unfold updateSensorStatus, getSensorById, after, result. cbn.
  split; [ | eexists; repeat split; reflexivity ].
  rewrite filter_map_commute
    by (intro x; destruct (sensor_id x =? id); reflexivity).
  rewrite hd_error_map.
  destruct (id' =? id) eqn:E.
  - apply Z.eqb_eq in E. subst id'.
    destruct (filter _ (sensors s)) as [ | x l ] eqn:F; [ reflexivity | ]. cbn.
    assert (Hx : In x (filter (fun x => sensor_id x =? id) (sensors s)))
      by (rewrite F; left; reflexivity).
    apply filter_In in Hx. destruct Hx as [_ Hx]. rewrite Hx. reflexivity.
  - destruct (filter _ (sensors s)) as [ | x l ] eqn:F; [ reflexivity | ]. cbn.
    assert (Hx : In x (filter (fun x => sensor_id x =? id') (sensors s)))
      by (rewrite F; left; reflexivity).
    apply filter_In in Hx. destruct Hx as [_ Hx].
    apply Z.eqb_eq in Hx. rewrite Hx, E. reflexivity.
Qed.

Lemma nextId_above {A} (key : A -> Z) (rows : list A) (r : A) :
  In r rows -> key r < nextId key rows.
Proof.
  intro H. unfold nextId.
  pose proof (proj2 (fold_max_bounds (map key rows) 0) (key r) (in_map key _ _ H)).
  lia.
Qed.

Lemma getUnreadAlerts_some s :
  result getUnreadAlerts (Some s) =
  sortBy (fun a b => alert_timestamp b <=? alert_timestamp a)
    (filter (fun a => Bool.eqb (isRead a) false) (alerts s)).
Proof. reflexivity. Qed.

Lemma createAlert_run a s :
  createAlert a (Some s) =
  (Some (nextId alert_id (alerts s)),
   Some (setAlerts s
           (alerts s ++
            [{| alert_id := nextId alert_id (alerts s);
                alert_sensorId := ia_sensorId a; alert_type := ia_type a;
                alert_severity := ia_severity a; alert_message := ia_message a;
                alert_location := ia_location a; isRead := false;
                isResolved := false; alert_timestamp := ia_timestamp a |}]))).
Proof. reflexivity. Qed.

(** X4: without a database [createAlert] throws and changes nothing.
    With one, it appends a single alert that carries the six given
    fields (sensor, type, severity, message, location and timestamp),
    is unread and unresolved, and has an id larger than every id in the
    table; it returns that id, and the alert is among the unread ones
    afterwards. *)
Theorem createAlert_spec a db :
  match db with
  | None => result (createAlert a) db = None /\ after (createAlert a) db = None
  | Some s =>
      exists id row,
        result (createAlert a) db = Some id
        /\ after (createAlert a) db = Some (setAlerts s (alerts s ++ [row]))
        /\ alert_id row = id
        /\ (forall x, In x (alerts s) -> alert_id x < id)
        /\ alert_sensorId row = ia_sensorId a /\ alert_type row = ia_type a
        /\ alert_severity row = ia_severity a /\ alert_message row = ia_message a
        /\ alert_location row = ia_location a /\ alert_timestamp row = ia_timestamp a
        /\ isRead row = false /\ isResolved row = false
        /\ In row (result getUnreadAlerts (after (createAlert a) db))
  end.
Proof.
  destruct db as [s | ]; [ | split; reflexivity ].
  unfold result at 1, after. rewrite createAlert_run. cbn [fst snd].
  eexists. eexists. split; [ reflexivity | ]. split; [ reflexivity | ].
  cbn [alert_id alert_sensorId alert_type alert_severity alert_message
       alert_location alert_timestamp isRead isResolved].
  split; [ reflexivity | ].
  split; [ intros x Hx; apply nextId_above; exact Hx | ].
  repeat (split; [ reflexivity | ]).
  rewrite getUnreadAlerts_some, sortBy_In, filter_In. split; [ | reflexivity ].
  cbn [alerts setAlerts]. apply in_or_app. right. left. reflexivity.
Qed.

Lemma withRead_read (a : Alert) : isRead a = true -> withRead a = a.
Proof.
  destruct a. cbn. intros ->. reflexivity.
Qed.

(** X5: after [markAllAlertsAsRead] no alert is unread, and the alerts
    are the ones stored before, each marked read and otherwise
    unchanged. *)
Theorem markAllAlertsAsRead_clears s :
  let db' := after markAllAlertsAsRead (Some s) in
  result getUnreadAlerts db' = []
  /\ db' = Some (setAlerts s (map withRead (alerts s))).
Proof.
  cbv zeta.
  assert (E : after markAllAlertsAsRead (Some s)
              = Some (setAlerts s (map withRead (alerts s)))).
  { unfold markAllAlertsAsRead, after. cbn. do 2 f_equal.
    apply map_ext. intro a. destruct (isRead a) eqn:R; cbn; [ | reflexivity ].
    symmetry. apply withRead_read, R. }
  rewrite E, getUnreadAlerts_some. cbn [alerts setAlerts]. split; [ | reflexivity ].
  assert (F : forall l, filter (fun a => Bool.eqb (isRead a) false) (map withRead l) = []).
  { induction l as [ | a l IH]; cbn; [ reflexivity | exact IH ]. }
  rewrite F. reflexivity.
Qed.

(** X6: after [markAlertAsRead id] no alert with that id is unread, and
    an alert with another id is unread exactly if it was before. *)
Theorem markAlertAsRead_spec id db :
  let before := result getUnreadAlerts db in
  let unread := result getUnreadAlerts (after (markAlertAsRead id) db) in
  (forall a, In a unread -> alert_id a <> id)
  /\ (forall a, alert_id a <> id -> (In a unread <-> In a before)).
Proof.
  cbv zeta. destruct db as [s | ]; [ | split; [ intros a [] | tauto ] ].
  change (after (markAlertAsRead id) (Some s))
    with (Some (setAlerts s
                  (map (fun a => if alert_id a =? id then withRead a else a) (alerts s)))).
  rewrite !getUnreadAlerts_some. cbn [alerts setAlerts].
  split.
  - intros a. rewrite sortBy_In, filter_In, in_map_iff.
    intros [[x [Hx _]] Hr] E.
    destruct (alert_id x =? id) eqn:I.
    + subst a. cbn in Hr. discriminate.
    + subst a. apply Z.eqb_neq in I. contradiction.
  - intros a Ha. rewrite !sortBy_In, !filter_In, in_map_iff. split.
    + intros [[x [Hx Hin]] Hr]. destruct (alert_id x =? id) eqn:I.
      * subst a. cbn in Hr. discriminate.
      * subst a. auto.
    + intros [Hin Hr]. split; [ | exact Hr ].
      exists a. split; [ | exact Hin ].
      destruct (alert_id a =? id) eqn:I; [ | reflexivity ].
      apply Z.eqb_eq in I. contradiction.
Qed.

(** ** Flow patterns *)

(** X7: a pattern upserted for a bucket that has no row yet is what
    [getFlowPattern] finds for that bucket afterwards. *)
Theorem upsertFlowPattern_lookup_fresh p s :
  result (getFlowPattern (ifp_sensorId p) (ifp_hourOfDay p) (ifp_dayOfWeek p)) (Some s)
  = None ->
  exists row,
    result (getFlowPattern (ifp_sensorId p) (ifp_hourOfDay p) (ifp_dayOfWeek p))
      (after (upsertFlowPattern p) (Some s)) = Some row
    /\ avgFlowRate row = ifp_avgFlowRate p /\ minFlowRate row = ifp_minFlowRate p
    /\ maxFlowRate row = ifp_maxFlowRate p /\ stdDeviation row = ifp_stdDeviation p
    /\ sampleCount row = ifp_sampleCount p.
Proof.
  intro H. rewrite upsertFlowPattern_appends.
  unfold getFlowPattern, result in *. cbn in *.
  rewrite filter_app.
  destruct (filter _ (flowPatterns s)) as [ | x l ]; [ | discriminate ].
  cbn. rewrite !Z.eqb_refl. cbn.
  eexists. split; [ reflexivity | ]. repeat split; reflexivity.
Qed.

Lemma upsertFlowPattern_lookup_fresh_witness :
  exists row,
    result (getFlowPattern 1 22 2)
      (after (upsertFlowPattern
                {| ifp_sensorId := 1; ifp_hourOfDay := 22; ifp_dayOfWeek := 2;
                   ifp_avgFlowRate := 1000; ifp_minFlowRate := 800;
                   ifp_maxFlowRate := 1200; ifp_stdDeviation := 100;
                   ifp_sampleCount := 12 |}) Sample.lowPressure) = Some row
    /\ avgFlowRate row = 1000.
Proof.
  destruct (upsertFlowPattern_lookup_fresh
              {| ifp_sensorId := 1; ifp_hourOfDay := 22; ifp_dayOfWeek := 2;
                 ifp_avgFlowRate := 1000; ifp_minFlowRate := 800;
                 ifp_maxFlowRate := 1200; ifp_stdDeviation := 100;
                 ifp_sampleCount := 12 |}
              {| sensors := [Sample.mainPipe sensor_active];
                 flowReadings := Sample.lowPressureReadings; alerts := [];
                 flowPatterns := []; pipeRiskScores := [] |} eq_refl)
    as [row [H [Ha _]]].
  exists row. split; [ exact H | exact Ha ].
Defined.

(** ** Aggregates *)

Lemma fold_min_bounds (l : list Z) (a : Z) :
  fold_left Z.min l a <= a /\ forall x, In x l -> fold_left Z.min l a <= x.
Proof.
  revert a. induction l as [ | y l IH]; intro a; cbn.
  - split; [ lia | intros x [] ].
  - destruct (IH (Z.min a y)) as [H1 H2]. split; [ lia | ].
    intros x [-> | Hx]; [ lia | auto ].
Qed.

Lemma minList_le (l : list Z) (x : Z) : In x l -> minList l <= x.
Proof.
  destruct l as [ | y l]; [ intros [] | ]. cbn.
  destruct (fold_min_bounds l y) as [H1 H2]. intros [<- | Hx]; auto.
Qed.

Lemma maxList_ge (l : list Z) (x : Z) : In x l -> x <= maxList l.
Proof.
  destruct l as [ | y l]; [ intros [] | ]. cbn.
  destruct (fold_max_bounds l y) as [H1 H2]. intros [<- | Hx]; auto.
Qed.

Lemma fold_add_shift (l : list Z) (a : Z) : fold_left Z.add l a = a + sum l.
Proof.
  unfold sum. revert a. induction l as [ | x l IH]; intro a; cbn; [ lia | ].
  rewrite (IH (a + x)), (IH x). lia.
Qed.

Lemma sum_cons (x : Z) (l : list Z) : sum (x :: l) = x + sum l.
Proof. unfold sum at 1. cbn. apply fold_add_shift. Qed.

Lemma len_cons {A} (x : A) (l : list A) : len (x :: l) = 1 + len l.
Proof. unfold len. cbn [List.length]. lia. Qed.

Lemma len_nonneg {A} (l : list A) : 0 <= len l.
Proof. unfold len. lia. Qed.

Lemma sum_bounds (l : list Z) (lo hi : Z) :
  (forall x, In x l -> lo <= x <= hi) ->
  len l * lo <= sum l <= len l * hi.
Proof.
  induction l as [ | y l IH]; intro H.
  - cbn. lia.
  - rewrite sum_cons, len_cons.
    assert (lo <= y <= hi) by (apply H; left; reflexivity).
    assert (len l * lo <= sum l <= len l * hi)
      by (apply IH; intros x Hx; apply H; right; exact Hx).
    lia.
Qed.

(** The mean of a non-empty list lies between its least and its
    greatest element. *)
Lemma mean_bounds (l : list Z) :
  l <> [] -> (inject_Z (minList l) <= mean l <= inject_Z (maxList l))%Q.
Proof.
  intro Hl.
  assert (Hn : 0 < len l) by (destruct l; [ congruence | rewrite len_cons; pose proof (len_nonneg l); lia ]).
  assert (Hq : (0 < inject_Z (len l))%Q) by (unfold Qlt; cbn; lia).
  pose proof (sum_bounds l (minList l) (maxList l)
                (fun x Hx => conj (minList_le l x Hx) (maxList_ge l x Hx))) as [H1 H2].
  unfold mean. split.
  - apply Qle_shift_div_l; [ exact Hq | ].
    rewrite <- inject_Z_mult, <- Zle_Qle. lia.
  - apply Qle_shift_div_r; [ exact Hq | ].
    rewrite <- inject_Z_mult, <- Zle_Qle. lia.
Qed.

Lemma floor_half_between (q : Q) (lo hi : Z) :
  (inject_Z lo <= q <= inject_Z hi)%Q -> lo <= Qfloor (q + (1 # 2)) <= hi.
Proof.
  intros [H1 H2]. split.
  - rewrite <- (Qfloor_Z lo). apply Qfloor_resp_le. Lqa.lra.
  - assert (H : Qfloor (q + (1 # 2)) < hi + 1); [ | lia ].
    rewrite Zlt_Qlt. eapply Qle_lt_trans; [ apply Qfloor_le | ].
    rewrite inject_Z_plus. change (inject_Z 1) with 1%Q. Lqa.lra.
Qed.

Lemma roundHalfAway_between (q : Q) (lo hi : Z) :
  (inject_Z lo <= q <= inject_Z hi)%Q -> lo <= roundHalfAway q <= hi.
Proof.
  intros [H1 H2]. unfold roundHalfAway. destruct (Qle_bool 0 q).
  - apply floor_half_between. split; assumption.
  - assert (H : - hi <= Qfloor (- q + (1 # 2)) <= - lo); [ | lia ].
    apply floor_half_between. rewrite !inject_Z_opp. split; Lqa.lra.
Qed.

(** The rounded average of a non-empty group still lies between its
    least and its greatest element. *)
Lemma sqlAvg_bounds (l : list Z) :
  l <> [] -> (inject_Z (minList l) <= sqlAvg l <= inject_Z (maxList l))%Q.
Proof.
  intro Hl. destruct (mean_bounds l Hl) as [H1 H2].
  assert (H : minList l * 10000 <= roundHalfAway (mean l * 10000) <= maxList l * 10000).
  { apply roundHalfAway_between. rewrite !inject_Z_mult.
    change (inject_Z 10000) with 10000%Q. split; Lqa.lra. }
  destruct H as [H3 H4]. unfold sqlAvg. split.
  - apply Qle_shift_div_l; [ reflexivity | ].
    change 10000%Q with (inject_Z 10000). rewrite <- inject_Z_mult, <- Zle_Qle. exact H3.
  - apply Qle_shift_div_r; [ reflexivity | ].
    change 10000%Q with (inject_Z 10000). rewrite <- inject_Z_mult, <- Zle_Qle. exact H4.
Qed.

Lemma distinct_In (x : Z) (l : list Z) : In x (distinct l) <-> In x l.
Proof.
  induction l as [ | y l IH]; cbn; [ tauto | ].
  rewrite filter_In, IH, negb_true_iff, Z.eqb_neq.
  destruct (Z.eq_dec y x); intuition congruence.
Qed.

Lemma distinct_NoDup (l : list Z) : NoDup (distinct l).
Proof.
  induction l as [ | y l IH]; cbn; constructor.
  - rewrite filter_In, negb_true_iff, Z.eqb_neq. tauto.
  - apply NoDup_filter, IH.
Qed.

(** X8: [getAggregatedFlowData] returns one row per sensor that has a
    reading at or after the cutoff [now - window], and no sensor twice.
    Every row counts at least one reading, and its average flow lies
    between its minimum and its maximum flow. *)
Theorem getAggregatedFlowData_spec clk w s :
  let data := result (getAggregatedFlowData clk w) (Some s) in
  NoDup (map agg_sensorId data)
  /\ (forall sid, In sid (map agg_sensorId data) <->
                  exists r, In r (flowReadings s) /\ fr_sensorId r = sid
                            /\ now clk - w <= timestamp r)
  /\ (forall d, In d data ->
        1 <= readingCount d
        /\ (inject_Z (agg_minFlowRate d) <= agg_avgFlowRate d
            <= inject_Z (agg_maxFlowRate d))%Q).
Proof.
  cbv zeta. unfold getAggregatedFlowData, result. cbn.
  set (rows := filter (fun r => now clk - w <=? timestamp r) (flowReadings s)).
  rewrite map_map. cbn [agg_sensorId aggregateGroup]. rewrite map_id.
  split; [ apply distinct_NoDup | ]. split.
  - intro sid. rewrite distinct_In, in_map_iff. unfold rows. split.
    + intros [r [E Hr]]. apply filter_In in Hr. destruct Hr as [Hin Ht].
      exists r. rewrite Z.leb_le in Ht. auto.
    + intros [r [Hin [E Ht]]]. exists r. split; [ exact E | ].
      apply filter_In. rewrite Z.leb_le. auto.
  - intros d Hd. apply in_map_iff in Hd. destruct Hd as [sid [<- Hsid]].
    apply distinct_In, in_map_iff in Hsid. destruct Hsid as [r [E Hr]].
    cbn [readingCount agg_minFlowRate agg_avgFlowRate agg_maxFlowRate aggregateGroup].
    assert (Hg : In r (filter (fun r => fr_sensorId r =? sid) rows))
      by (apply filter_In; rewrite Z.eqb_eq; auto).
    destruct (filter (fun r => fr_sensorId r =? sid) rows) as [ | g0 g ] eqn:G;
      [ destruct Hg | ].
    split.
    + rewrite len_cons. pose proof (len_nonneg g). lia.
    + apply sqlAvg_bounds. discriminate.
Qed.

(** ** Comparison across pipes, continued *)

Lemma filter_none {A} (f : A -> bool) (l : list A) :
  (forall x, In x l -> f x = false) -> filter f l = [].
Proof.
  induction l as [ | x l IH]; intro H; cbn; [ reflexivity | ].
  rewrite (H x) by (left; reflexivity).
  apply IH. intros y Hy. apply H. right. exact Hy.
Qed.

(** X9: [compareFlowAcrossPipes] writes nothing and only ever lists
    sensors that have data in the window.  With fewer than two such
    sensors it reports no system-wide issue, no affected sensor, and
    the diagnosis Insufficient data for comparison. *)
Theorem compareFlowAcrossPipes_affected clk db :
  let data := result (getAggregatedFlowData clk 300000) db in
  let r := result (compareFlowAcrossPipes clk) db in
  after (compareFlowAcrossPipes clk) db = db
  /\ incl (affectedSensors r) (map agg_sensorId data)
  /\ (len data < 2 ->
      isSystemWideIssue r = false /\ affectedSensors r = []
      /\ diagnosis r = "Insufficient data for comparison").
Proof.
  intros data r. split; [ | split ].
  - unfold compareFlowAcrossPipes. rewrite after_bind, readOnly_calculateFlowVariance.
    destruct (result (calculateFlowVariance clk) db) as [fv | ]; [ | reflexivity ].
    cbv zeta. destruct (Qltb _ _); [ reflexivity | ].
    destruct (0 <? _); reflexivity.
  - subst r. rewrite compareFlowAcrossPipes_result. cbv zeta. fold data.
    destruct (len data <? 2); [ intros x [] | ].
    destruct (Qltb _ _); [ apply incl_refl | ].
    destruct (0 <? _); [ | intros x [] ].
    cbn [affectedSensors]. intros x Hx. apply in_map_iff in Hx.
    destruct Hx as [d [<- Hd]]. apply filter_In in Hd. apply in_map, Hd.
  - intro H. subst r. rewrite compareFlowAcrossPipes_result. cbv zeta. fold data.
    apply Z.ltb_lt in H. rewrite H. auto.
Qed.

Lemma compareFlowAcrossPipes_affected_witness :
  diagnosis (result (compareFlowAcrossPipes Sample.clock) Sample.lowPressure)
  = "Insufficient data for comparison".
Proof.
  apply (compareFlowAcrossPipes_affected Sample.clock Sample.lowPressure).
  vm_compute. reflexivity.
Defined.

Lemma Qsum_constant (l : list Q) (q acc : Q) :
  (forall x, In x l -> x == q)%Q ->
  (fold_left Qplus l acc == acc + inject_Z (len l) * q)%Q.
Proof.
  revert acc. induction l as [ | x l IH]; intros acc H.
  - cbn. ring.
  - cbn [fold_left]. rewrite IH by (intros y Hy; apply H; right; exact Hy).
    rewrite len_cons, inject_Z_plus.
    assert (Hx : (x == q)%Q) by (apply H; left; reflexivity).
    rewrite Hx. ring.
Qed.

(** X10: when at least two sensors have data and all report the same,
    non-negative mean flow, [compareFlowAcrossPipes] reports no issue:
    nothing is system-wide, no sensor is affected. *)
Theorem compareFlowAcrossPipes_even_flows clk db q :
  let data := result (getAggregatedFlowData clk 300000) db in
  2 <= len data ->
  (0 <= q)%Q ->
  (forall d, In d data -> (agg_avgFlowRate d == q)%Q) ->
  result (compareFlowAcrossPipes clk) db =
  {| isSystemWideIssue := false; affectedSensors := [];
     diagnosis := "All sensors operating within normal parameters." |}.
Proof.
  intros data Hn Hq Hall. rewrite compareFlowAcrossPipes_result. cbv zeta. fold data.
  apply Z.ltb_ge in Hn. rewrite Hn. apply Z.ltb_ge in Hn.
  assert (Hpos : (0 < inject_Z (len data))%Q) by (unfold Qlt; cbn; lia).
  assert (Havg : (Qmean (map agg_avgFlowRate data) == q)%Q).
  { unfold Qmean, Qsum. rewrite (Qsum_constant _ q).
    - unfold len. rewrite length_map. fold (len data). field.
      intro E. rewrite E in Hpos. exact (Qlt_irrefl 0 Hpos).
    - intros x Hx. apply in_map_iff in Hx. destruct Hx as [d [<- Hd]]. auto. }
  rewrite (filter_none (fun s => Qltb (agg_avgFlowRate s) _)).
  2:{ intros d Hd. apply Qltb_ge. rewrite Havg, (Hall d Hd).
      setoid_replace q with (q * 1)%Q at 2 by ring.
      setoid_replace (q * (1 # 2))%Q with ((1 # 2) * q)%Q by ring.
      setoid_replace (q * 1)%Q with (1 * q)%Q by ring.
      apply Qmult_le_compat_r; [ discriminate | exact Hq ]. }
  assert (Hwide : Qltb (inject_Z (len data) * (7 # 10)) (inject_Z (len (@nil AggregatedFlow)))
                  = false).
  { apply Qltb_ge. change (inject_Z (len (@nil AggregatedFlow))) with 0%Q.
    apply Qmult_le_0_compat; [ apply Qlt_le_weak, Hpos | discriminate ]. }
  rewrite Hwide.
  rewrite (filter_none (fun s => gt_sqrt _ _)); [ reflexivity | ].
  intros d Hd. unfold gt_sqrt. apply andb_false_iff. left. apply Qltb_ge.
  rewrite Havg, (Hall d Hd).
  setoid_replace (q - q)%Q with 0%Q by ring. discriminate.
Qed.

Lemma compareFlowAcrossPipes_even_flows_witness :
  affectedSensors (result (compareFlowAcrossPipes Sample.clock) Fixture.evenFlows) = [].
Proof.
  rewrite (compareFlowAcrossPipes_even_flows Sample.clock Fixture.evenFlows 2000).
  - reflexivity.
  - vm_compute. discriminate.
  - discriminate.
  - intros d Hd. vm_compute in Hd.
    destruct Hd as [<- | [<- | [<- | []]]]; reflexivity.
Defined.

(** ** Leak classification *)

Lemma readOnly_classifyLeak sid : readOnly (classifyLeak sid).
Proof.
  unfold classifyLeak.
  apply readOnly_bind; [ apply readOnly_getSensorById | intro sensor ].
  apply readOnly_bind; [ apply readOnly_getRecentFlowReadings | intro readings ].
  destruct (_ || _); [ apply readOnly_ret | ].
  cbv zeta. destruct (classifyBands _ _ _) as [[t sv] loss]. apply readOnly_ret.
Qed.

Lemma classifyLeak_result sid db :
  let readings := result (getRecentFlowReadings sid 20) db in
  let avgFlow := mean (map flowRate readings) in
  let bands := classifyBands avgFlow (mean (map pressure readings))
                 (variance (map flowRate readings) avgFlow) in
  result (classifyLeak sid) db =
  if match result (getSensorById sid) db with None => true | Some _ => false end
     || (len readings <? 5)
  then {| lc_type := unknown; lc_severity := medium; estimatedFlowLoss := 0;
          urgency := "Unable to classify - insufficient data" |}
  else {| lc_type := fst (fst bands); lc_severity := snd (fst bands);
          estimatedFlowLoss := Z.max 0 (round (snd bands));
          urgency := urgencyMap (snd (fst bands)) |}.
Proof.
  intros readings avgFlow bands. unfold classifyLeak.
  rewrite result_bind, readOnly_getSensorById.
  rewrite result_bind, readOnly_getRecentFlowReadings. fold readings.
  destruct (_ || _); [ reflexivity | ].
  cbv zeta. fold avgFlow. fold bands. destruct bands as [[t sv] loss]. reflexivity.
Qed.

(** X11: for an unknown sensor, or with fewer than five recent
    readings, [classifyLeak] answers type unknown, severity medium, no
    flow loss, and the urgency text Unable to classify. *)
Theorem classifyLeak_insufficient sid db :
  result (getSensorById sid) db = None
  \/ len (result (getRecentFlowReadings sid 20) db) < 5 ->
  result (classifyLeak sid) db =
  {| lc_type := unknown; lc_severity := medium; estimatedFlowLoss := 0;
     urgency := "Unable to classify - insufficient data" |}.
Proof.
  intro H. rewrite classifyLeak_result. cbv zeta.
  destruct H as [-> | H]; [ reflexivity | ].
  apply Z.ltb_lt in H. rewrite H, orb_true_r. reflexivity.
Qed.

Lemma classifyLeak_insufficient_witness :
  lc_type (result (classifyLeak 1) Sample.lowPressure) = unknown.
Proof.
  rewrite (classifyLeak_insufficient 1 Sample.lowPressure); [ reflexivity | ].
  right. vm_compute. reflexivity.
Defined.

Lemma classifyBands_severity avgFlow avgPressure flowVariance :
  let bands := classifyBands avgFlow avgPressure flowVariance in
  snd (fst bands) =
  match fst (fst bands) with
  | burst => critical | joint => high | pinhole => medium
  | seepage => low | unknown => medium
  end
  /\ (fst (fst bands) = unknown -> snd bands = 0%Q).
Proof.
  unfold classifyBands.
  repeat match goal with
         | |- context [if ?b then _ else _] => destruct b
         end; cbn; split; try reflexivity; discriminate.
Qed.

(** X12: [classifyLeak] writes nothing; its estimated flow loss is
    never negative; the severity it reports is fixed by the type
    (burst: critical, joint: high, pinhole: medium, seepage: low,
    unknown: medium); and type unknown always comes with a flow loss
    of 0. *)
Theorem classifyLeak_invariants sid db :
  let r := result (classifyLeak sid) db in
  after (classifyLeak sid) db = db
  /\ 0 <= estimatedFlowLoss r
  /\ lc_severity r =
     match lc_type r with
     | burst => critical | joint => high | pinhole => medium
     | seepage => low | unknown => medium
     end
  /\ (lc_type r = unknown -> estimatedFlowLoss r = 0).
Proof.
  intro r. split; [ apply readOnly_classifyLeak | ].
  subst r. rewrite classifyLeak_result. cbv zeta.
  destruct (_ || _); [ cbn; repeat split; lia | ].
  cbn [lc_type lc_severity estimatedFlowLoss].
  destruct (classifyBands_severity
              (mean (map flowRate (result (getRecentFlowReadings sid 20) db)))
              (mean (map pressure (result (getRecentFlowReadings sid 20) db)))
              (variance (map flowRate (result (getRecentFlowReadings sid 20) db))
                 (mean (map flowRate (result (getRecentFlowReadings sid 20) db)))))
    as [H1 H2].
  cbv zeta in H1, H2. split; [ lia | ]. split; [ exact H1 | ].
  intro H. rewrite (H2 H). reflexivity.
Qed.

(** X13: for a known sensor with at least five recent readings, a mean
    flow above 5000 and a mean pressure below 2000, [classifyLeak]
    answers burst, critical, immediate action, with an estimated flow
    loss of at least 3000. *)
Theorem classifyLeak_burst sid db sensor :
  let readings := result (getRecentFlowReadings sid 20) db in
  result (getSensorById sid) db = Some sensor ->
  5 <= len readings ->
  (5000 < mean (map flowRate readings))%Q ->
  (mean (map pressure readings) < 2000)%Q ->
  let r := result (classifyLeak sid) db in
  lc_type r = burst /\ lc_severity r = critical
  /\ 3000 <= estimatedFlowLoss r
  /\ urgency r = "Immediate action required. Shut off water supply if possible.".
Proof.
  intros readings Hs Hn Hf Hp r. subst r.
  rewrite classifyLeak_result, Hs. fold readings.
  apply Z.ltb_ge in Hn. rewrite Hn. cbn [orb]. unfold classifyBands.
  apply Qltb_lt in Hf. apply Qltb_lt in Hp. rewrite Hf, Hp.
  cbn [andb fst snd lc_type lc_severity estimatedFlowLoss urgency urgencyMap].
  repeat split. apply Qltb_lt in Hf.
  transitivity (round (mean (map flowRate readings) / 100 * 60)); [ | lia ].
  unfold round. rewrite <- (Qfloor_Z 3000). apply Qfloor_resp_le.
  setoid_replace (mean (map flowRate readings) / 100 * 60)%Q
    with (mean (map flowRate readings) * (3 # 5))%Q by field.
  change (inject_Z 3000) with 3000%Q. Lqa.lra.
Qed.

Lemma classifyLeak_burst_witness :
  let r := result (classifyLeak 1) Fixture.burstPipe in
  lc_type r = burst /\ lc_severity r = critical
  /\ 3000 <= estimatedFlowLoss r
  /\ urgency r = "Immediate action required. Shut off water supply if possible.".
Proof.
  apply (classifyLeak_burst 1 Fixture.burstPipe (Sample.mainPipe sensor_leak)).
  - reflexivity.
  - vm_compute. discriminate.
  - vm_compute. reflexivity.
  - vm_compute. reflexivity.
Defined.

(** X14: whatever else is stored, a mean flow of at most 1500 over the
    recent readings is never classified as a leak: the type is unknown
    and the estimated flow loss 0. *)
Theorem classifyLeak_low_flow_unknown sid db :
  (mean (map flowRate (result (getRecentFlowReadings sid 20) db)) <= 1500)%Q ->
  let r := result (classifyLeak sid) db in
  lc_type r = unknown /\ estimatedFlowLoss r = 0.
Proof.
  intros H r. subst r. rewrite classifyLeak_result. cbv zeta.
  destruct (_ || _); [ split; reflexivity | ].
  set (F := mean (map flowRate (result (getRecentFlowReadings sid 20) db))) in *.
  assert (H1 : Qltb 5000 F = false) by (apply Qltb_ge; Lqa.lra).
  assert (H2 : Qltb 3000 F = false) by (apply Qltb_ge; Lqa.lra).
  assert (H3 : Qltb 2000 F = false) by (apply Qltb_ge; Lqa.lra).
  assert (H4 : Qltb 1500 F = false) by (apply Qltb_ge; Lqa.lra).
  unfold classifyBands. rewrite H1, H2, H3, H4. cbn. split; reflexivity.
Qed.

Lemma classifyLeak_low_flow_unknown_witness :
  let r := result (classifyLeak 1) Fixture.slowPipe in
  (len (result (getRecentFlowReadings 1 20) Fixture.slowPipe) = 5
   /\ urgency r = "Schedule repair within 1 week.")
  /\ lc_type r = unknown /\ estimatedFlowLoss r = 0.
Proof.
  split.
  - split; vm_compute; reflexivity.
  - apply (classifyLeak_low_flow_unknown 1 Fixture.slowPipe).
    vm_compute. discriminate.
Defined.

(** ** Smart monitoring: the whole decision *)

Lemma pressure_bands_exclusive (p : Q) :
  Qltb p 3000 = true -> Qltb 5000 p = false.
Proof.
  intro H. apply Qltb_lt in H. apply Qltb_ge. Lqa.lra.
Qed.

(** X15: for a known sensor with at least three readings in the window
    the status is blockage exactly when the mean flow is below 100 and
    the mean pressure above 5000; leak exactly when the mean pressure is
    below 3000; warning exactly when neither holds and the flow is
    unstable or deviates from the learned pattern; normal exactly when
    no factor is listed.  Unstable is the source's own test, the
    standard deviation of the flow exceeding 0.3 times its mean, with
    all three computed in doubles. *)
Theorem analyzeFlowOverTime_status clk sid w db sensor :
  let readings :=
    result (getFlowReadingsInTimeRange sid (now clk - w * 60 * 1000) (now clk)) db in
  let avgFlow := mean (map flowRate readings) in
  let avgPressure := mean (map pressure readings) in
  let unstable :=
    Double.gt (Double.stdDev (map flowRate readings))
      (PrimFloat.mul (Double.mean (map flowRate readings)) Double.three_tenths) in
  let flagged := isAnomaly (result (checkFlowAnomaly clk sid avgFlow) db) in
  result (getSensorById sid) db = Some sensor ->
  3 <= len readings ->
  let r := result (analyzeFlowOverTime clk sid w) db in
  (status r = blockage <-> (avgFlow < 100 /\ 5000 < avgPressure)%Q)
  /\ (status r = leak <-> (avgPressure < 3000)%Q)
  /\ (status r = warning <->
      ~ (avgPressure < 3000)%Q /\ ~ (avgFlow < 100 /\ 5000 < avgPressure)%Q
      /\ (unstable = true \/ flagged = true))
  /\ (status r = normal <-> factors r = []).
Proof.
  intros readings avgFlow avgPressure unstable flagged Hs Hn r.
  subst r unstable flagged.
  rewrite analyzeFlowOverTime_result, Hs. fold readings.
  apply Z.ltb_ge in Hn. rewrite Hn. cbv zeta.
  fold avgFlow. fold avgPressure.
  rewrite <- !Qltb_lt.
  pose proof (pressure_bands_exclusive avgPressure) as Hex.
  unfold rulePattern, ruleBlockage, ruleLowPressure, ruleHighVariance.
  set (u := Double.gt _ _). set (f := isAnomaly _).
  destruct u, (Qltb avgPressure 3000), (Qltb avgFlow 100),
    (Qltb 5000 avgPressure), f;
    try (specialize (Hex eq_refl); discriminate Hex);
    cbn; intuition congruence.
Qed.

Lemma analyzeFlowOverTime_status_witness :
  status (result (analyzeFlowOverTime Sample.clock 1 5) Fixture.blockedPipe) = blockage
  /\ status (result (analyzeFlowOverTime Sample.clock 1 5) Fixture.unevenFlow) = warning.
Proof.
  split.
  - apply (analyzeFlowOverTime_status Sample.clock 1 5 Fixture.blockedPipe
             (Sample.mainPipe sensor_active)).
    + reflexivity.
    + vm_compute. discriminate.
    + split; vm_compute; reflexivity.
  - apply (analyzeFlowOverTime_status Sample.clock 1 5 Fixture.unevenFlow
             (Sample.mainPipe sensor_active)).
    + reflexivity.
    + vm_compute. discriminate.
    + split; [ intro H; vm_compute in H; discriminate H | ].
      split; [ intros [_ H]; vm_compute in H; discriminate H | ].
      left. vm_compute. reflexivity.
Defined.

(** On readings of mean 12 and standard deviation 3.6 the variance rule
    fires: 12 * 0.3 is 3.5999999999999996 in doubles. *)
Lemma analyzeFlowOverTime_variance_in_doubles :
  let flows := [21; 21; 3; 3] ++ repeat 12 21%nat in
  let r := result (analyzeFlowOverTime Sample.clock 1 5) Fixture.unevenFlow in
  (mean flows == 12)%Q
  /\ (variance flows 12 == (18 # 5) * (18 # 5))%Q
  /\ sqrt_gt (variance flows 12) (12 * (3 # 10)) = false
  /\ Double.gt (Double.stdDev flows) (PrimFloat.mul (Double.mean flows) Double.three_tenths)
     = true
  /\ status r = warning /\ factors r = ["high_flow_variance"].
Proof.
  cbv zeta. repeat split; vm_compute; reflexivity.
Qed.

(** X16: whatever the input, [analyzeFlowOverTime] reports a confidence
    within [0, 95], never the severity critical, and severity low
    exactly when the status is normal. *)
Theorem analyzeFlowOverTime_consistent clk sid w db :
  let r := result (analyzeFlowOverTime clk sid w) db in
  0 <= confidence r <= 95
  /\ severity r <> critical
  /\ (severity r = low <-> status r = normal).
Proof.
  intro r. subst r. rewrite analyzeFlowOverTime_result. cbv zeta.
  destruct (result (getSensorById sid) db) as [sensor | ];
    [ | cbn; repeat split; (lia || discriminate || auto) ].
  destruct (len _ <? 3); [ cbn; repeat split; (lia || discriminate || auto) | ].
  unfold rulePattern, ruleBlockage, ruleLowPressure, ruleHighVariance.
  destruct (Double.gt _ _), (Qltb _ 3000), (Qltb _ 100 && Qltb 5000 _),
    (isAnomaly _);
    cbn; repeat split; intros; try lia; try discriminate; auto.
Qed.

(** ** Risk prediction, continued *)

(** X17: for a sensor id without a Sensor record
    [calculatePipeRiskScore] returns null and writes nothing. *)
Theorem calculatePipeRiskScore_unknown_sensor clk sid db :
  result (getSensorById sid) db = None ->
  result (calculatePipeRiskScore clk sid) db = None
  /\ after (calculatePipeRiskScore clk sid) db = db.
Proof.
  intro H. unfold result, after. rewrite calculatePipeRiskScore_run, H.
  split; reflexivity.
Qed.

Lemma calculatePipeRiskScore_unknown_sensor_witness :
  result (calculatePipeRiskScore Sample.clock 1) Sample.noSensors = None
  /\ after (calculatePipeRiskScore Sample.clock 1) Sample.noSensors = Sample.noSensors.
Proof.
  apply (calculatePipeRiskScore_unknown_sensor Sample.clock 1 Sample.noSensors).
  reflexivity.
Defined.

(** X18: [calculatePipeRiskScore] touches no table but the stored risk
    scores: sensors, readings, alerts and learned patterns are after
    the call what they were before it. *)
Theorem calculatePipeRiskScore_frame clk sid s :
  exists s',
    after (calculatePipeRiskScore clk sid) (Some s) = Some s'
    /\ sensors s' = sensors s /\ flowReadings s' = flowReadings s
    /\ alerts s' = alerts s /\ flowPatterns s' = flowPatterns s.
Proof.
  unfold after. rewrite calculatePipeRiskScore_run.
  destruct (result (getSensorById sid) (Some s)) as [sensor | ].
  - cbv zeta. cbn [snd]. rewrite upsertPipeRiskScore_appends.
    eexists. split; [ reflexivity | ]. repeat split; reflexivity.
  - exists s. repeat split; reflexivity.
Qed.

Lemma addRisk_zero a b label sc :
  0 < a -> 0 <= s_riskScore sc ->
  0 < s_riskScore (addRisk a b label sc) /\ s_factors (addRisk a b label sc) <> [].
Proof.
  intros Ha Hs. cbn. split; [ lia | ].
  destruct (s_factors sc); discriminate.
Qed.

Lemma scoreOf_zero clk sensor recent patterns :
  let sc := scoreOf clk sensor recent patterns in
  s_riskScore sc = 0 <-> s_factors sc = [].
Proof.
  set (I := fun sc : Score =>
              0 <= s_riskScore sc
              /\ (s_riskScore sc = 0 <-> s_factors sc = [])).
  assert (Hadd : forall a b label sc, 0 < a -> I sc -> I (addRisk a b label sc)).
  { intros a b label sc Ha [H0 _].
    destruct (addRisk_zero a b label sc Ha H0) as [H1 H2].
    split; [ lia | ]. split; [ lia | contradiction ]. }
  set (init := {| s_riskScore := 0; s_leakProbability := 0;
                  s_blockageProbability := 0; s_factors := [] |}).
  assert (H0 : I init) by (split; [ cbn; lia | cbn; tauto ]).
  assert (H1 : I (factorStatus sensor init)).
  { unfold factorStatus. destruct (sensor_status sensor);
      try exact H0; apply Hadd; auto; lia. }
  set (s1 := factorStatus sensor init) in *.
  assert (H2 : I (factorReadings recent s1)).
  { unfold factorReadings. destruct (10 <=? len recent); [ | exact H1 ].
    cbv zeta. destruct (cvAbove _ _ _); destruct (Qltb _ 3500);
      repeat (apply Hadd; [ lia | ]); exact H1. }
  set (s2 := factorReadings recent s1) in *.
  assert (H3 : I (factorPattern clk patterns recent s2)).
  { unfold factorPattern. destruct (0 <? len patterns); [ | exact H2 ].
    destruct (find _ patterns) as [p | ]; [ | exact H2 ].
    destruct recent as [ | first rest ]; [ exact H2 | ].
    cbv zeta. destruct (_ <? _); [ apply Hadd; auto; lia | exact H2 ]. }
  set (s3 := factorPattern clk patterns recent s2) in *.
  assert (H4 : I (factorPipeType sensor s3)).
  { unfold factorPipeType. destruct (sensor_pipeType sensor) as [t | ]; [ | exact H3 ].
    destruct (String.eqb t "main"); [ apply Hadd; auto; lia | exact H3 ]. }
  intro sc. subst sc. unfold scoreOf. fold init. fold s1. fold s2. fold s3.
  destruct H4 as [H4 H5]. unfold normalize. cbn [s_riskScore s_factors].
  rewrite <- H5. lia.
Qed.

(** X19: in every result of [calculatePipeRiskScore] the blockage
    probability is 0, and the risk score is 0 exactly when no factor is
    listed. *)
Theorem calculatePipeRiskScore_factors clk sid db r :
  result (calculatePipeRiskScore clk sid) db = Some r ->
  blockageProbability r = 0
  /\ (riskScore r = 0 <-> pr_factors r = []).
Proof.
  intro H.
  destruct (calculatePipeRiskScore_some clk sid db r H)
    as [sensor [sc [_ [Hsc [Hrisk [_ [Hblock Hfactors]]]]]]].
  pose proof (scoreOf_bounds clk sensor (result (getRecentFlowReadings sid 50) db)
                (result (getAllFlowPatternsForSensor sid) db)) as B.
  pose proof (scoreOf_zero clk sensor (result (getRecentFlowReadings sid 50) db)
                (result (getAllFlowPatternsForSensor sid) db)) as Z0.
  cbv zeta in B, Z0. rewrite <- Hsc in B, Z0.
  rewrite Hblock, Hrisk, Hfactors. split; [ lia | exact Z0 ].
Qed.

Lemma calculatePipeRiskScore_factors_witness :
  exists r, result (calculatePipeRiskScore Sample.clock 1) Sample.lowPressure = Some r
            /\ blockageProbability r = 0.
Proof.
  eexists. split; [ vm_compute; reflexivity | ].
  apply (calculatePipeRiskScore_factors Sample.clock 1 Sample.lowPressure).
  vm_compute. reflexivity.
Defined.

(** X20: a sensor stored as leaking, with fewer than ten recent
    readings, no learned pattern and a pipe type other than main, gets
    exactly the leak factor: risk score 50, leak probability 80, the
    single factor Active leak detected, and the advice to schedule
    maintenance within the week. *)
Theorem calculatePipeRiskScore_leak_only clk sid db sensor :
  result (getSensorById sid) db = Some sensor ->
  sensor_status sensor = sensor_leak ->
  sensor_pipeType sensor <> Some "main" ->
  len (result (getRecentFlowReadings sid 50) db) < 10 ->
  result (getAllFlowPatternsForSensor sid) db = [] ->
  exists r,
    result (calculatePipeRiskScore clk sid) db = Some r
    /\ riskScore r = 50 /\ leakProbability r = 80
    /\ pr_factors r = ["Active leak detected"]
    /\ recommendation r = "Schedule preventive maintenance within the next week.".
Proof.
  intros Hs Hst Hpt Hn Hp. unfold result.
  rewrite calculatePipeRiskScore_run, Hs. cbv zeta. cbn [fst].
  eexists. split; [ reflexivity | ].
  cbn [riskScore leakProbability pr_factors recommendation].
  rewrite Hp. unfold scoreOf, factorPipeType, factorPattern, factorReadings, factorStatus.
  rewrite Hst. apply Z.leb_gt in Hn. rewrite Hn.
  assert (Hmain : match sensor_pipeType sensor with
                  | Some t => String.eqb t "main"
                  | None => false
                  end = false).
  { destruct (sensor_pipeType sensor) as [t | ]; [ | reflexivity ].
    destruct (String.eqb t "main") eqn:E; [ | reflexivity ].
    apply String.eqb_eq in E. subst t. contradiction. }
  destruct (sensor_pipeType sensor) as [t | ]; [ rewrite Hmain | ];
    cbn; repeat split; reflexivity.
Qed.

Lemma calculatePipeRiskScore_leak_only_witness :
  exists r,
    result (calculatePipeRiskScore Sample.clock 3) Fixture.leakingBranch = Some r
    /\ riskScore r = 50 /\ leakProbability r = 80
    /\ pr_factors r = ["Active leak detected"]
    /\ recommendation r = "Schedule preventive maintenance within the next week.".
Proof.
  apply (calculatePipeRiskScore_leak_only Sample.clock 3 Fixture.leakingBranch
           (Sample.pipe 3 "Branch Pipe" "Basement - Utility Room" "branch" sensor_leak)).
  - reflexivity.
  - reflexivity.
  - discriminate.
  - vm_compute. reflexivity.
  - reflexivity.
Defined.

(** ** Pattern learning, continued *)

Lemma sameKey_eq (k k' : Z * Z) : sameKey k k' = true <-> k = k'.
Proof.
  destruct k as [a b], k' as [a' b']. unfold sameKey. cbn.
  rewrite andb_true_iff, !Z.eqb_eq. split; [ intros [-> ->]; reflexivity | ].
  intro H. injection H as -> ->. auto.
Qed.

Lemma sameKey_refl (k : Z * Z) : sameKey k k = true.
Proof. apply sameKey_eq. reflexivity. Qed.

Lemma sameKey_neq (k k' : Z * Z) : sameKey k k' = false <-> k <> k'.
Proof.
  rewrite <- sameKey_eq. destruct (sameKey k k'); split; congruence.
Qed.

Lemma groupOf_groupPush (key k : Z * Z) (v : Z) (m : list ((Z * Z) * list Z)) :
  groupOf key (groupPush k v m) =
  if sameKey k key
  then Some (match groupOf k m with Some vs => vs ++ [v] | None => [v] end)
  else groupOf key m.
Proof.
  induction m as [ | [k0 vs0] m IH]; cbn.
  - reflexivity.
  - fold (sameKey k0 k). destruct (sameKey k0 k) eqn:E; cbn.
    + apply sameKey_eq in E. subst k0. destruct (sameKey k key); reflexivity.
    + rewrite IH. destruct (sameKey k0 key) eqn:F; [ | reflexivity ].
      apply sameKey_eq in F. subst k0.
      destruct (sameKey k key) eqn:G; [ | reflexivity ].
      apply sameKey_eq in G. subst k. rewrite sameKey_refl in E. discriminate.
Qed.

Lemma groupPush_keys (k' k : Z * Z) (v : Z) (m : list ((Z * Z) * list Z)) :
  In k' (map fst (groupPush k v m)) <-> k' = k \/ In k' (map fst m).
Proof.
  induction m as [ | [k0 vs0] m IH]; cbn.
  - intuition congruence.
  - fold (sameKey k0 k). destruct (sameKey k0 k) eqn:E; cbn.
    + apply sameKey_eq in E. subst k0. intuition congruence.
    + rewrite IH. tauto.
Qed.

Lemma groupPush_NoDup (k : Z * Z) (v : Z) (m : list ((Z * Z) * list Z)) :
  NoDup (map fst m) -> NoDup (map fst (groupPush k v m)).
Proof.
  induction m as [ | [k0 vs0] m IH]; cbn; intro H.
  - constructor; [ intros [] | constructor ].
  - fold (sameKey k0 k). inversion H as [ | ? ? Hn Hm ]; subst.
    destruct (sameKey k0 k) eqn:E; cbn.
    + constructor; assumption.
    + constructor; [ | apply IH, Hm ].
      rewrite groupPush_keys. intros [-> | Hin]; [ | contradiction ].
      rewrite sameKey_refl in E. discriminate.
Qed.

Lemma groupOf_In (k : Z * Z) (vs : list Z) (m : list ((Z * Z) * list Z)) :
  NoDup (map fst m) -> In (k, vs) m -> groupOf k m = Some vs.
Proof.
  induction m as [ | [k0 vs0] m IH]; cbn; intros H Hin; [ destruct Hin | ].
  inversion H as [ | ? ? Hn Hm ]; subst.
  destruct Hin as [E | Hin].
  - injection E as -> ->. rewrite sameKey_refl. reflexivity.
  - destruct (sameKey k0 k) eqn:E; [ | apply IH; assumption ].
    apply sameKey_eq in E. subst k0. exfalso. apply Hn.
    apply (in_map fst) in Hin. exact Hin.
Qed.

Lemma groupByDayHour_snoc clk (l : list FlowReading) (r : FlowReading) :
  groupByDayHour clk (l ++ [r]) =
  groupPush (readingKey clk r) (flowRate r) (groupByDayHour clk l).
Proof.
  unfold groupByDayHour. rewrite fold_left_app. reflexivity.
Qed.

Lemma groupByDayHour_NoDup clk (l : list FlowReading) :
  NoDup (map fst (groupByDayHour clk l)).
Proof.
  induction l as [ | r l IH] using rev_ind.
  - constructor.
  - rewrite groupByDayHour_snoc. apply groupPush_NoDup, IH.
Qed.

Lemma groupByDayHour_groupOf clk (l : list FlowReading) (k : Z * Z) :
  groupOf k (groupByDayHour clk l) =
  match filter (fun r => sameKey (readingKey clk r) k) l with
  | [] => None
  | g => Some (map flowRate g)
  end.
Proof.
  induction l as [ | r l IH] using rev_ind.
  - reflexivity.
  - rewrite groupByDayHour_snoc, groupOf_groupPush, filter_app. cbn [filter].
    destruct (sameKey (readingKey clk r) k) eqn:E.
    + apply sameKey_eq in E. subst k. rewrite IH.
      destruct (filter _ l) as [ | g0 g ]; [ reflexivity | ].
      cbn. rewrite map_app. reflexivity.
    + rewrite app_nil_r. exact IH.
Qed.

(** X21: [learnFlowPatterns] files every reading under exactly one
    (weekday, hour) key: no key occurs twice, and the group of a key
    holds the flow rates of the readings with that weekday and hour, in
    the order of the readings, and is never empty. *)
Theorem groupByDayHour_partition clk (readings : list FlowReading) :
  let groups := groupByDayHour clk readings in
  NoDup (map fst groups)
  /\ (forall k vs, In (k, vs) groups ->
        vs <> []
        /\ vs = map flowRate
                  (filter (fun r => sameKey (readingKey clk r) k) readings))
  /\ (forall r, In r readings -> In (readingKey clk r) (map fst groups)).
Proof.
  intro groups. split; [ apply groupByDayHour_NoDup | ]. split.
  - intros k vs Hin.
    apply (groupOf_In _ _ _ (groupByDayHour_NoDup clk readings)) in Hin.
    rewrite groupByDayHour_groupOf in Hin.
    destruct (filter _ readings) as [ | g0 g ]; [ discriminate | ].
    injection Hin as <-. split; [ discriminate | reflexivity ].
  - intros r Hr. subst groups. clear - Hr.
    induction readings as [ | x l IH] using rev_ind; [ destruct Hr | ].
    rewrite groupByDayHour_snoc, groupPush_keys.
    apply in_app_or in Hr. destruct Hr as [Hr | [<- | []]]; auto.
Qed.

Lemma round_between (q : Q) (lo hi : Z) :
  (inject_Z lo <= q <= inject_Z hi)%Q -> lo <= round q <= hi.
Proof.
  intros [H1 H2]. unfold round. split.
  - rewrite <- (Qfloor_Z lo). apply Qfloor_resp_le. Lqa.lra.
  - assert (H : Qfloor (q + (1 # 2)) < hi + 1); [ | lia ].
    rewrite Zlt_Qlt. eapply Qle_lt_trans; [ apply Qfloor_le | ].
    rewrite inject_Z_plus. change (inject_Z 1) with 1%Q. Lqa.lra.
Qed.

(** X22: every pattern that [learnFlowPatterns] hands to
    [upsertFlowPattern] is for the given sensor, has its hour within
    [0, 23] and its weekday within [0, 6], counts at least one sample,
    has a standard deviation that is not negative, and an average
    between its minimum and its maximum. *)
Theorem learnedPattern_well_formed clk sid (readings : list FlowReading) entry :
  In entry (groupByDayHour clk readings) ->
  let p := learnedPattern sid entry in
  ifp_sensorId p = sid
  /\ 0 <= ifp_hourOfDay p <= 23 /\ 0 <= ifp_dayOfWeek p <= 6
  /\ 1 <= ifp_sampleCount p
  /\ 0 <= ifp_stdDeviation p
  /\ ifp_minFlowRate p <= ifp_avgFlowRate p <= ifp_maxFlowRate p.
Proof.
  destruct entry as [[day hour] flows]. intros Hin p. subst p.
  assert (Hg : flows <> []
               /\ flows = map flowRate
                            (filter (fun r => sameKey (readingKey clk r) (day, hour))
                               readings)).
  { apply (groupOf_In _ _ _ (groupByDayHour_NoDup clk readings)) in Hin.
    rewrite groupByDayHour_groupOf in Hin.
    destruct (filter _ readings) as [ | g0 g ]; [ discriminate | ].
    injection Hin as <-. split; [ discriminate | reflexivity ]. }
  destruct Hg as [Hne Hflows].
  cbn [learnedPattern ifp_sensorId ifp_hourOfDay ifp_dayOfWeek ifp_sampleCount
       ifp_stdDeviation ifp_minFlowRate ifp_avgFlowRate ifp_maxFlowRate].
  split; [ reflexivity | ].
  assert (Hkey : exists r, readingKey clk r = (day, hour)).
  { generalize Hne. rewrite Hflows.
    destruct (filter _ readings) as [ | r g ] eqn:F; [ cbn; congruence | intros _ ].
    assert (Hr : In r (filter (fun r => sameKey (readingKey clk r) (day, hour)) readings))
      by (rewrite F; left; reflexivity).
    apply filter_In in Hr. destruct Hr as [_ Hr]. apply sameKey_eq in Hr. eauto. }
  destruct Hkey as [r Hr]. unfold readingKey in Hr. injection Hr as <- <-.
  split; [ unfold getHours; pose proof (Z.mod_pos_bound ((timestamp r + tzOffset clk) / 3600000) 24); lia | ].
  split; [ unfold getDay; pose proof (Z.mod_pos_bound ((timestamp r + tzOffset clk) / 86400000 + 4) 7); lia | ].
  split; [ destruct flows; [ congruence | rewrite len_cons; pose proof (len_nonneg flows); lia ] | ].
  split.
  - unfold roundSqrt. apply Z.div_pos; [ | lia ].
    pose proof (Z.sqrt_nonneg (Qfloor (4 * variance flows (mean flows)))). lia.
  - apply round_between, mean_bounds, Hne.
Qed.

Lemma learnedPattern_well_formed_witness :
  exists entry,
    In entry (groupByDayHour Sample.clock (result (getRecentFlowReadings 1 100) Sample.steady))
    /\ ifp_minFlowRate (learnedPattern 1 entry) <= ifp_avgFlowRate (learnedPattern 1 entry)
       <= ifp_maxFlowRate (learnedPattern 1 entry).
Proof.
  exists ((2, 22), [2001; 2002; 2003; 2004; 2005; 2006; 2007; 2008; 2009; 2010]).
  split; [ vm_compute; left; reflexivity | ].
  apply (learnedPattern_well_formed Sample.clock 1
           (result (getRecentFlowReadings 1 100) Sample.steady)).
  vm_compute. left. reflexivity.
Defined.

(** X23: [learnFlowPatterns] touches no table but the learned patterns:
    sensors, readings, alerts and risk scores are after the call what
    they were before it. *)
Theorem learnFlowPatterns_frame clk sid s :
  exists s',
    after (learnFlowPatterns clk sid) (Some s) = Some s'
    /\ sensors s' = sensors s /\ flowReadings s' = flowReadings s
    /\ alerts s' = alerts s /\ pipeRiskScores s' = pipeRiskScores s.
Proof.
  rewrite learnFlowPatterns_run. cbv zeta.
  destruct (len _ <? 10).
  - exists s. repeat split; reflexivity.
  - destruct (forEach_upsert_appends sid
                (groupByDayHour clk (result (getRecentFlowReadings sid 100) (Some s))) s)
      as [rows [H _]].
    rewrite H. eexists. split; [ reflexivity | ]. repeat split; reflexivity.
Qed.

(** ** System health *)

Lemma readOnly_getAllSensors : readOnly getAllSensors.
Proof. unfold getAllSensors. read_only_query. Qed.

Lemma readOnly_getAlertsToday clk : readOnly (getAlertsToday clk).
Proof. unfold getAlertsToday. read_only_query. Qed.

Lemma getSensorById_found (x : Sensor) (s : Store) :
  In x (sensors s) -> exists y, result (getSensorById (sensor_id x)) (Some s) = Some y.
Proof.
  intro H. unfold getSensorById, result. cbn.
  destruct (filter _ (sensors s)) as [ | y l ] eqn:F; [ | exists y; reflexivity ].
  assert (Hx : In x (filter (fun y => sensor_id y =? sensor_id x) (sensors s)))
    by (apply filter_In; rewrite Z.eqb_refl; auto).
  rewrite F in Hx. destruct Hx.
Qed.

(** The loop over the sensors: one prediction per sensor, in order, and
    nothing but the stored risk scores is written. *)
Lemma predictAll_run clk (l : list Sensor) :
  forall (acc : list PredictionResult) (s : Store),
    (forall x, In x l -> In x (sensors s)) ->
    exists ps s',
      predictAll clk l acc (Some s) = (acc ++ ps, Some s')
      /\ sensors s' = sensors s /\ flowReadings s' = flowReadings s
      /\ alerts s' = alerts s /\ flowPatterns s' = flowPatterns s
      /\ map pr_sensorId ps = map sensor_id l
      /\ Forall (fun p => 0 <= riskScore p <= 100) ps.
Proof.
  induction l as [ | x l IH]; intros acc s Hin.
  - exists [], s. cbn. rewrite app_nil_r. repeat split; constructor.
  - cbn [predictAll]. unfold bind at 1.
    rewrite calculatePipeRiskScore_run.
    destruct (getSensorById_found x s (Hin x (or_introl eq_refl))) as [y Hy].
    rewrite Hy. cbv zeta. rewrite upsertPipeRiskScore_appends.
    set (sc := scoreOf clk y _ _).
    set (s1 := setPipeRiskScores s _).
    set (p := {| pr_sensorId := sensor_id x; sensorName := sensor_name y;
                 riskScore := s_riskScore sc; leakProbability := s_leakProbability sc;
                 blockageProbability := s_blockageProbability sc;
                 pr_factors := s_factors sc;
                 recommendation := recommend (s_riskScore sc) |}).
    destruct (IH (acc ++ [p]) s1) as [ps [s' [Hrun [H1 [H2 [H3 [H4 [H5 H6]]]]]]]].
    { intros z Hz. apply Hin. right. exact Hz. }
    exists (p :: ps), s'. rewrite Hrun, <- app_assoc.
    split; [ reflexivity | ].
    repeat (split; [ assumption | ]).
    split; [ cbn; rewrite H5; reflexivity | ].
    constructor; [ | exact H6 ].
    pose proof (scoreOf_bounds clk y
                  (result (getRecentFlowReadings (sensor_id x) 50) (Some s))
                  (result (getAllFlowPatternsForSensor (sensor_id x)) (Some s))) as B.
    cbv zeta in B. cbn [riskScore p]. fold sc in B. lia.
Qed.

Lemma predictAll_db clk db :
  exists ps db',
    predictAll clk (result getAllSensors db) [] db = (ps, db')
    /\ map pr_sensorId ps = map sensor_id (result getAllSensors db)
    /\ Forall (fun p => 0 <= riskScore p <= 100) ps
    /\ match db, db' with
       | Some s, Some s' =>
           sensors s' = sensors s /\ flowReadings s' = flowReadings s
           /\ alerts s' = alerts s /\ flowPatterns s' = flowPatterns s
       | None, None => True
       | _, _ => False
       end.
Proof.
  destruct db as [s | ].
  - destruct (predictAll_run clk (result getAllSensors (Some s)) [] s)
      as [ps [s' [Hrun [H1 [H2 [H3 [H4 [H5 H6]]]]]]]].
    { intros x Hx. unfold getAllSensors, result in Hx. cbn in Hx.
      apply sortBy_In in Hx. exact Hx. }
    exists ps, (Some s'). auto 10.
  - exists [], None. cbn. repeat split; constructor.
Qed.

Lemma generateSystemHealthReport_run clk db :
  let allSensors := result getAllSensors db in
  let alertsToday := result (getAlertsToday clk) db in
  let activeSensors := len (filter (fun s => negb (isStatus sensor_offline s)) allSensors) in
  let warningSensors := len (filter (isStatus sensor_warning) allSensors) in
  let leakSensors := len (filter (isStatus sensor_leak) allSensors) in
  let predictions := result (predictAll clk allSensors []) db in
  generateSystemHealthReport clk db =
  ({| overallHealth :=
        Z.max 0
          (Z.min 100
             (100 - leakSensors * 20 - warningSensors * 10
              - (len allSensors - activeSensors) * 5 - len alertsToday * 2
              - len (filter (fun p => 50 <? riskScore p) predictions) * 5));
      totalSensors := len allSensors;
      activeSensors := activeSensors;
      warningCount := warningSensors;
      leakCount := leakSensors;
      predictions := sortBy (fun a b => riskScore b <=? riskScore a) predictions |},
   after (predictAll clk allSensors []) db).
Proof.
  cbv zeta. rewrite (run_pair (generateSystemHealthReport clk) db).
  unfold generateSystemHealthReport.
  rewrite result_bind, after_bind, readOnly_getAllSensors.
  rewrite result_bind, after_bind, readOnly_getAlertsToday.
  rewrite result_bind, after_bind.
  reflexivity.
Qed.

Lemma status_counts (l : list Sensor) :
  len (filter (isStatus sensor_warning) l) + len (filter (isStatus sensor_leak) l)
  <= len (filter (fun s => negb (isStatus sensor_offline s)) l) <= len l.
Proof.
  induction l as [ | x l IH]; [ cbn; lia | ].
  cbn [filter].
  destruct (isStatus sensor_warning x) eqn:W, (isStatus sensor_leak x) eqn:L,
    (isStatus sensor_offline x) eqn:O;
    unfold isStatus in W, L, O; destruct (sensor_status x); try discriminate;
    cbn [negb]; rewrite ?len_cons; lia.
Qed.

(** X24: the health report gives an overall health within [0, 100];
    its sensor count is the number of stored sensors, and of these at
    least as many are active as are in warning or leaking. *)
Theorem generateSystemHealthReport_health clk db :
  let r := result (generateSystemHealthReport clk) db in
  0 <= overallHealth r <= 100
  /\ totalSensors r = len (result getAllSensors db)
  /\ warningCount r + leakCount r <= activeSensors r <= totalSensors r.
Proof.
  intro r.
  assert (Hr : r = fst (generateSystemHealthReport clk db)) by reflexivity.
  rewrite generateSystemHealthReport_run in Hr. cbn [fst] in Hr.
  clearbody r. subst r.
  cbn [overallHealth totalSensors warningCount leakCount activeSensors].
  split; [ lia | ]. split; [ reflexivity | apply status_counts ].
Qed.

(** X25: the health report holds exactly one prediction per stored
    sensor, each with a risk score within [0, 100], ranked from the
    highest risk score to the lowest. *)
Theorem generateSystemHealthReport_predictions clk db :
  let r := result (generateSystemHealthReport clk) db in
  Permutation (map pr_sensorId (predictions r)) (map sensor_id (result getAllSensors db))
  /\ Forall (fun p => 0 <= riskScore p <= 100) (predictions r)
  /\ StronglySorted (fun a b => riskScore b <= riskScore a) (predictions r).
Proof.
  intro r.
  assert (Hr : r = fst (generateSystemHealthReport clk db)) by reflexivity.
  rewrite generateSystemHealthReport_run in Hr. cbn [fst] in Hr.
  clearbody r. subst r. cbn [predictions].
  destruct (predictAll_db clk db) as [ps [db' [Hrun [Hids [Hb _]]]]].
  replace (result (predictAll clk (result getAllSensors db) []) db) with ps
    by (unfold result at 1; rewrite Hrun; reflexivity).
  split; [ | split ].
  - rewrite <- Hids. apply Permutation_map, sortBy_perm.
  - apply (Permutation_Forall (Permutation_sym (sortBy_perm _ ps))). exact Hb.
  - apply sortBy_descending.
Qed.

(** X26: generating the health report touches no table but the stored
    risk scores. *)
Theorem generateSystemHealthReport_frame clk s :
  exists s',
    after (generateSystemHealthReport clk) (Some s) = Some s'
    /\ sensors s' = sensors s /\ flowReadings s' = flowReadings s
    /\ alerts s' = alerts s /\ flowPatterns s' = flowPatterns s.
Proof.
  unfold after at 1. rewrite generateSystemHealthReport_run. cbn [snd].
  destruct (predictAll_db clk (Some s)) as [ps [db' [Hrun [_ [_ Hframe]]]]].
  unfold after. rewrite Hrun. cbn [snd].
  destruct db' as [s' | ]; [ | destruct Hframe ].
  exists s'. tauto.
Qed.

(** ** The simulation procedures *)

Lemma setSensors_same (s : Store) : setSensors s (sensors s) = s.
Proof. destruct s. reflexivity. Qed.

Lemma setSensors_twice (s : Store) (a b : list Sensor) :
  setSensors (setSensors s a) b = setSensors s b.
Proof. reflexivity. Qed.

Lemma sensors_setSensors (s : Store) (a : list Sensor) : sensors (setSensors s a) = a.
Proof. reflexivity. Qed.

Lemma reset_loop (l : list Sensor) :
  forall s,
    after (forEach l (fun sensor => updateSensorStatus (sensor_id sensor) sensor_active))
      (Some s)
    = Some (setSensors s
              (map (fun x => if existsb (fun y => sensor_id x =? sensor_id y) l
                             then withStatus x sensor_active else x)
                 (sensors s))).
Proof.
  induction l as [ | y l IH]; intro s.
  - cbn [forEach existsb]. rewrite map_id, setSensors_same. reflexivity.
  - cbn [forEach]. rewrite after_bind.
    change (after (updateSensorStatus (sensor_id y) sensor_active) (Some s))
      with (Some (setSensors s
                    (map (fun x => if sensor_id x =? sensor_id y
                                   then withStatus x sensor_active else x)
                       (sensors s)))).
    rewrite IH, setSensors_twice, sensors_setSensors, map_map.
    apply f_equal, f_equal. apply map_ext. intro x. cbn [existsb].
    destruct (sensor_id x =? sensor_id y); cbn [orb sensor_id withStatus].
    + destruct (existsb _ l); reflexivity.
    + reflexivity.
Qed.

(** X27: [resetSystem] sets every stored sensor to active and changes
    nothing else: same sensors in the same order, same readings, alerts,
    patterns and scores.  It reports success and the number of sensors
    as the reset count. *)
Theorem resetSystem_spec s :
  after resetSystem (Some s)
  = Some (setSensors s (map (fun x => withStatus x sensor_active) (sensors s)))
  /\ result resetSystem (Some s)
     = {| reset_success := true; resetCount := len (sensors s) |}.
Proof.
  unfold resetSystem. split.
  - rewrite after_bind, readOnly_getAllSensors, after_bind, reset_loop.
    cbn [after ret snd]. apply f_equal, f_equal. apply map_ext_in. intros x Hx.
    assert (E : existsb (fun y => sensor_id x =? sensor_id y)
                  (result getAllSensors (Some s)) = true).
    { apply existsb_exists. exists x. split; [ | apply Z.eqb_refl ].
      unfold getAllSensors, result. cbn. apply sortBy_In. exact Hx. }
    rewrite E. reflexivity.
  - rewrite result_bind, readOnly_getAllSensors, result_bind.
    cbn [result ret fst]. f_equal.
    unfold getAllSensors, result. cbn. apply sortBy_len.
Qed.

Lemma getAllSensors_len s : len (result getAllSensors (Some s)) = len (sensors s).
Proof. unfold getAllSensors, result. cbn. apply sortBy_len. Qed.

Lemma seedSensors_existing s :
  sensors s <> [] ->
  seedSensors (Some s)
  = (Some {| seed_success := true; seed_message := "Sensors already exist";
             seed_count := len (sensors s) |}, Some s).
Proof.
  intro H. rewrite (run_pair seedSensors (Some s)). unfold seedSensors.
  rewrite result_bind, after_bind, readOnly_getAllSensors, getAllSensors_len.
  assert (E : (0 <? len (sensors s)) = true).
  { apply Z.ltb_lt. destruct (sensors s); [ congruence | ].
    rewrite len_cons. pose proof (len_nonneg l). lia. }
  rewrite E. reflexivity.
Qed.

Lemma seedSensors_empty s :
  sensors s = [] ->
  seedSensors (Some s)
  = (Some {| seed_success := true; seed_message := "Sensors created"; seed_count := 3 |},
     Some (setSensors s
             [ {| sensor_id := 1; sensor_name := "Main Pipe";
                  sensor_location := "Upper floor – Kitchen";
                  sensor_pipeType := Some "main"; sensor_status := sensor_active |};
               {| sensor_id := 2; sensor_name := "Secondary Pipe";
                  sensor_location := "Ground floor – Bathroom";
                  sensor_pipeType := Some "secondary"; sensor_status := sensor_active |};
               {| sensor_id := 3; sensor_name := "Branch Pipe";
                  sensor_location := "Basement – Utility Room";
                  sensor_pipeType := Some "branch"; sensor_status := sensor_active |} ])).
Proof.
  intro H. destruct s as [ss rs als ps scs]. cbn in H. subst ss. reflexivity.
Qed.

(** X28: [seedSensors] never touches a table that already holds a
    sensor: it reports Sensors already exist with their number.  On an
    empty table it creates the three default sensors, all active, with
    distinct ids.  Hence seeding twice leaves the store as seeding once
    does.  Without a database it throws. *)
Theorem seedSensors_spec s :
  (sensors s <> [] ->
   after seedSensors (Some s) = Some s
   /\ option_map seed_count (result seedSensors (Some s)) = Some (len (sensors s)))
  /\ (sensors s = [] ->
      exists s',
        after seedSensors (Some s) = Some s'
        /\ NoDup (map sensor_id (sensors s'))
        /\ map sensor_name (sensors s') = ["Main Pipe"; "Secondary Pipe"; "Branch Pipe"]
        /\ Forall (fun x => sensor_status x = sensor_active) (sensors s')
        /\ flowReadings s' = flowReadings s /\ alerts s' = alerts s)
  /\ after (seedSensors ;;; seedSensors) (Some s) = after seedSensors (Some s)
  /\ result seedSensors None = None.
Proof.
  split; [ | split; [ | split ] ].
  - intro H. unfold after, result. rewrite (seedSensors_existing s H). split; reflexivity.
  - intro H. unfold after. rewrite (seedSensors_empty s H). cbn [snd].
    eexists. split; [ reflexivity | ].
    cbn. split; [ | repeat split; try reflexivity; repeat constructor ].
    repeat constructor; cbn; intuition discriminate.
  - rewrite after_bind. destruct (sensors s) as [ | x l ] eqn:E.
    + unfold after at 2 3. rewrite (seedSensors_empty s E). cbn [snd].
      unfold after. rewrite seedSensors_existing by discriminate. reflexivity.
    + assert (H : sensors s <> []) by (rewrite E; discriminate).
      unfold after at 2 3. rewrite (seedSensors_existing s H). cbn [snd].
      unfold after. rewrite (seedSensors_existing s H). reflexivity.
  - reflexivity.
Qed.

Lemma seedSensors_spec_witness :
  exists s, Sample.leaking = Some s
            /\ after seedSensors (Some s) = Some s.
Proof.
  eexists. split; [ reflexivity | ].
  apply (seedSensors_spec _). discriminate.
Defined.

(** ** Rankings and round trips *)

(** X29: [getAllPipeRiskScores] returns every stored risk score, once
    each, from the highest risk score to the lowest. *)
Theorem getAllPipeRiskScores_ranked s :
  let ranked := result getAllPipeRiskScores (Some s) in
  Permutation ranked (pipeRiskScores s)
  /\ StronglySorted (fun a b => prs_riskScore b <= prs_riskScore a) ranked.
Proof.
  cbv zeta. unfold getAllPipeRiskScores, result. cbn. split.
  - apply sortBy_perm.
  - apply sortBy_descending.
Qed.

Lemma getFlowReadingsInTimeRange_some sid t0 t1 s :
  result (getFlowReadingsInTimeRange sid t0 t1) (Some s) =
  sortBy (fun a b => timestamp a <=? timestamp b)
    (filter (fun r => (fr_sensorId r =? sid) && (t0 <=? timestamp r)
                      && (timestamp r <=? t1))
       (flowReadings s)).
Proof. reflexivity. Qed.

(** X30: a reading stored by [addFlowReading] is returned by
    [getFlowReadingsInTimeRange] for its sensor and any range that
    contains its timestamp, with the flow, pressure and timestamp given
    and the id that [addFlowReading] returned. *)
Theorem addFlowReading_then_range reading s t0 t1 :
  t0 <= ifr_timestamp reading <= t1 ->
  exists id row,
    result (addFlowReading reading) (Some s) = Some id
    /\ In row (result (getFlowReadingsInTimeRange (ifr_sensorId reading) t0 t1)
                 (after (addFlowReading reading) (Some s)))
    /\ fr_id row = id /\ (forall r, In r (flowReadings s) -> fr_id r < id)
    /\ flowRate row = ifr_flowRate reading /\ pressure row = ifr_pressure reading
    /\ timestamp row = ifr_timestamp reading.
Proof.
  intro H.
  change (after (addFlowReading reading) (Some s))
    with (Some (setFlowReadings s
                  (flowReadings s ++
                   [{| fr_id := nextId fr_id (flowReadings s);
                       fr_sensorId := ifr_sensorId reading;
                       flowRate := ifr_flowRate reading;
                       pressure := ifr_pressure reading;
                       timestamp := ifr_timestamp reading |}]))).
  eexists. eexists. split; [ reflexivity | ]. split.
  - rewrite getFlowReadingsInTimeRange_some.
    rewrite sortBy_In, filter_In, !andb_true_iff, Z.eqb_eq, !Z.leb_le.
    cbn [flowReadings setFlowReadings].
    split; [ apply in_or_app; right; left; reflexivity | cbn; lia ].
  - cbn. repeat split; try reflexivity. intros r Hr. apply nextId_above, Hr.
Qed.

Lemma addFlowReading_then_range_witness :
  exists s id,
    Sample.lowPressure = Some s
    /\ result (addFlowReading
                 {| ifr_sensorId := 1; ifr_flowRate := 2100; ifr_pressure := 1700;
                    ifr_timestamp := 1700000000000 |}) (Some s) = Some id.
Proof.
  eexists. 
  destruct (addFlowReading_then_range
              {| ifr_sensorId := 1; ifr_flowRate := 2100; ifr_pressure := 1700;
                 ifr_timestamp := 1700000000000 |}
              {| sensors := [Sample.mainPipe sensor_active];
                 flowReadings := Sample.lowPressureReadings; alerts := [];
                 flowPatterns := []; pipeRiskScores := [] |}
              1699999000000 1700000000000 ltac:(cbn; lia))
    as [id [row [H _]]].
  exists id. split; [ reflexivity | exact H ].
Defined.
